(** * The Openlayer integration notebook (docs/howtos/integrations/openlayer.ipynb)

    The notebook is a linear script of calls into third-party SDKs
    (llama_index, ragas, datasets, openlayer).  The script's own logic is
    the three functions [build_query_engine], [generate_single_response]
    and [generate_ragas_dataset] and the order of the cells.

    The embedding is a state, error and trace monad: the state is the
    world outside the script (services, SDK objects, the process
    environment) together with the pandas frames created so far; errors are
    Python exceptions; the trace lists every external call the script makes,
    with its arguments and whether it raised.

    What the libraries do is not the script's: which columns
    [Dataset.from_dict] takes and how it stores their cells, and how
    [Dataset.to_pandas] converts them, are given with the SDK, like the
    answers of the services. *)

From Stdlib Require Import QArith SpecFloat.
From stdpp Require Import base option list strings sorting.

Set Warnings "-register-all".

Local Open Scope Z_scope.
Local Open Scope string_scope.
Local Open Scope list_scope.

(** ** Python values *)

(** The Python values found in frames, dicts and configs.  A numpy array
    of values is a [PList] too. *)
Inductive pyval : Type :=
| PNone
| PBool (b : bool)
| PInt (z : Z)
| PFloat (x : spec_float)
| PStr (s : string)
| PList (l : list pyval)
| PDict (d : list (string * pyval)).

(** A dict whose values are columns: the argument of [Dataset.from_dict]. *)
Abbreviation coldict := (list (string * list pyval)).

(** First binding of key [k] in an insertion-ordered dict. *)
Fixpoint assoc {V : Type} (k : string) (d : list (string * V)) : option V :=
  match d with
  | [] => None
  | (k', v) :: d' => if String.eqb k k' then Some v else assoc k d'
  end.

(** A pandas frame: the column labels and the rows, each row aligned with
    the labels (a missing cell reads as [PNone]).  Every value of this type
    is rectangular: each column has one entry per row.  A label may occur
    more than once. *)
Record DataFrame : Type := {
  df_columns : list string;
  df_rows : list (list pyval)
}.

(** The first position of the label [c]: whether a frame has a column
    with this label. *)
Fixpoint index_of (c : string) (cols : list string) : option nat :=
  match cols with
  | [] => None
  | c' :: cols' => if String.eqb c c' then Some 0%nat else S <$> index_of c cols'
  end.

(** All the positions of the label [c]. *)
Fixpoint positions (c : string) (cols : list string) : list nat :=
  match cols with
  | [] => []
  | c' :: cols' =>
      (if String.eqb c c' then [0%nat] else []) ++ (S <$> positions c cols')
  end.

(** [Dataset] of the datasets library: an immutable table, column by
    column, as the dataset gives the columns back. *)
Record Dataset : Type := { ds_data : coldict }.

Definition column_names (ds : Dataset) : list string := (ds_data ds).*1.

Definition column (ds : Dataset) (c : string) : option (list pyval) :=
  assoc c (ds_data ds).

(** The question types of ragas.testset.evolutions used as dict keys. *)
Inductive Evolution : Type := simple | reasoning | multi_context.

(** openlayer.tasks.TaskType, the member the script uses. *)
Inductive TaskType : Type := LLM.

(** llama_index response objects, as far as the script reads them. *)
Record NodeWithScore (Node : Type) : Type := { node : Node }.
Arguments node {Node} _.

Record Response (Node : Type) : Type := {
  response : string;
  source_nodes : list (NodeWithScore Node)
}.
Arguments response {Node} _.
Arguments source_nodes {Node} _.

(** ** The third-party SDKs *)

(** An external call: it may change the world and may raise. *)
Definition ext (World Err A : Type) : Type := World -> (Err + A) * World.

(** Everything the notebook calls and does not define.  [World] is the
    state of all that lives outside the script.

    The two conversions of the datasets library are part of it:
    [arrow_column] is what [Dataset.from_dict] does with a column (it
    rejects the column, or says how the dataset stores each cell), and
    [pandas_column] is how [Dataset.to_pandas] turns the cells of a column
    into those of the frame. *)
Record Sdk : Type := {
  World : Type;
  SdkError : Type;
  Reader : Type;
  Documents : Type;
  Generator : Type;
  Testset : Type;
  ServiceContext : Type;
  EmbedModel : Type;
  VectorIndex : Type;
  QueryEngine : Type;
  Node : Type;
  Client : Type;
  Project : Type;
  shell : string -> ext World SdkError unit;
  setenv : string -> string -> ext World SdkError unit;
  simple_directory_reader : string -> Z -> ext World SdkError Reader;
  load_data : Reader -> ext World SdkError Documents;
  with_openai : ext World SdkError Generator;
  generate_with_llamaindex_docs :
    Generator -> Documents -> Z -> list (Evolution * Q) -> ext World SdkError Testset;
  testset_to_pandas : Testset -> ext World SdkError DataFrame;
  nest_asyncio_apply : ext World SdkError unit;
  service_context_from_defaults : Z -> ext World SdkError ServiceContext;
  openai_embedding : ext World SdkError EmbedModel;
  from_documents :
    Documents -> ServiceContext -> EmbedModel -> ext World SdkError VectorIndex;
  as_query_engine : VectorIndex -> Z -> ext World SdkError QueryEngine;
  query : QueryEngine -> pyval -> ext World SdkError (Response Node);
  get_content : Node -> ext World SdkError string;
  arrow_column : list pyval -> SdkError + (pyval -> pyval);
  pandas_column : list pyval -> pyval -> pyval;
  openlayer_client : string -> ext World SdkError Client;
  create_project : Client -> string -> TaskType -> string -> ext World SdkError Project;
  add_dataframe : Project -> DataFrame -> pyval -> ext World SdkError unit;
  add_model : Project -> pyval -> ext World SdkError unit;
  commit : Project -> string -> ext World SdkError unit;
  push : Project -> ext World SdkError unit
}.

Section Script.

Context (sdk : Sdk).

(** Python exceptions the script can meet.  [ArrowInvalid] is what the
    datasets library raises on columns of different lengths; what it raises
    on a column it cannot convert is, like the exceptions of the other
    SDKs, an [External] one.  [InvalidFrame] stands for the use of a frame
    that was never created; the notebook never does that. *)
Inductive Exn : Type :=
| KeyError (k : string)
| ArrowInvalid
| InvalidFrame (r : nat)
| External (e : SdkError sdk).

(** The external calls the script makes, with their arguments. *)
Inductive Event : Type :=
| EShell (cmd : string)
| ESetEnv (name value : string)
| ESimpleDirectoryReader (path : string) (num_files_limit : Z)
| ELoadData (rd : Reader sdk)
| EWithOpenai
| EGenerate (g : Generator sdk) (docs : Documents sdk) (test_size : Z)
            (distributions : list (Evolution * Q))
| ETestsetToPandas (t : Testset sdk)
| ENestAsyncioApply
| EServiceContext (chunk_size : Z)
| EOpenAIEmbedding
| EFromDocuments (docs : Documents sdk) (sc : ServiceContext sdk) (em : EmbedModel sdk)
| EAsQueryEngine (vi : VectorIndex sdk) (similarity_top_k : Z)
| EQuery (eng : QueryEngine sdk) (q : pyval)
| EGetContent (n : Node sdk)
| EFromDict (d : coldict)
| EDatasetToPandas (ds : Dataset)
| EOpenlayerClient (api_key : string)
| ECreateProject (c : Client sdk) (name : string) (task_type : TaskType)
                 (description : string)
| EAddDataframe (p : Project sdk) (df : DataFrame) (config : pyval)
| EAddModel (p : Project sdk) (config : pyval)
| ECommit (p : Project sdk) (message : string)
| EPush (p : Project sdk).

(** A trace entry: the call, and the exception it raised if it did. *)
Definition Call : Type := Event * option Exn.

(** The state the script runs in: the outside world and the pandas frames
    created so far.  A frame is referred to by its position. *)
Record State : Type := {
  world : World sdk;
  frames : list DataFrame
}.

(** The state after an SDK call left the world as [w]. *)
Definition set_world (w : World sdk) (s : State) : State :=
  {| world := w; frames := frames s |}.

(** ** The monad *)

(** A computation: from a state to a result or an exception, the state
    it leaves, and the calls it made. *)
Definition M (A : Type) : Type := State -> (Exn + A) * State * list Call.

Definition ret {A : Type} (a : A) : M A := fun s => (inr a, s, []).

Definition raise {A : Type} (e : Exn) : M A := fun s => (inl e, s, []).

(** Sequencing.  There is no handler: an exception ends the computation. *)
Definition bind {A B : Type} (m : M A) (f : A -> M B) : M B :=
  fun s =>
    match m s with
    | (inl e, s', t) => (inl e, s', t)
    | (inr a, s', t) =>
        match f a s' with
        | (r, s'', t') => (r, s'', t ++ t')
        end
    end.

#[export] Instance M_ret : MRet M := @ret.
#[export] Instance M_bind : MBind M := fun A B f m => bind m f.

(** An SDK call: run on the world, logged with its outcome. *)
Definition call {A : Type} (ev : Event) (f : ext (World sdk) (SdkError sdk) A) : M A :=
  fun s =>
    match f (world s) with
    | (inl e, w) => (inl (External e), set_world w s, [(ev, Some (External e))])
    | (inr a, w) => (inr a, set_world w s, [(ev, None)])
    end.

(** Lift a pure Python operation that may raise. *)
Definition lift {A : Type} (r : Exn + A) : M A :=
  match r with
  | inl e => raise e
  | inr a => ret a
  end.

(** The three components of a run. *)
Definition outcome {A : Type} (x : (Exn + A) * State * list Call) : Exn + A := x.1.1.
Definition final {A : Type} (x : (Exn + A) * State * list Call) : State := x.1.2.
Definition trace {A : Type} (x : (Exn + A) * State * list Call) : list Call := x.2.

(** The calls of a trace, without their outcomes. *)
Definition events (t : list Call) : list Event := t.*1.

(** A library call that runs locally: logged, the world untouched. *)
Definition local {A : Type} (ev : Event) (r : Exn + A) : M A :=
  fun s =>
    match r with
    | inl e => (inl e, s, [(ev, Some e)])
    | inr a => (inr a, s, [(ev, None)])
    end.

(** ** pandas and datasets *)

(** [df[c].values]: [KeyError] without a column labelled [c]; the column,
    when one column has the label; when several have it, pandas gives the
    frame of these columns, whose values are, row by row, the arrays of the
    row's cells in them. *)
Definition df_getitem (df : DataFrame) (c : string) : Exn + list pyval :=
  match positions c (df_columns df) with
  | [] => inl (KeyError c)
  | [j] => inr ((fun row => nth j row PNone) <$> df_rows df)
  | js => inr ((fun row => PList ((fun j => nth j row PNone) <$> js)) <$> df_rows df)
  end.

(** [d[k]] on a dict. *)
Definition dict_getitem (d : list (string * pyval)) (k : string) : Exn + pyval :=
  match assoc k d with
  | Some v => inr v
  | None => inl (KeyError k)
  end.

(** The frame a variable refers to. *)
Definition read_frame (r : nat) : M DataFrame :=
  fun s =>
    match frames s !! r with
    | Some df => (inr df, s, [])
    | None => (inl (InvalidFrame r), s, [])
    end.

(** A new frame object; existing frames keep their positions. *)
Definition new_frame (df : DataFrame) : M nat :=
  fun s => (inr (length (frames s)),
            {| world := world s; frames := frames s ++ [df] |}, []).

(** [test_df[c].values] on a frame variable. *)
Definition getitem (r : nat) (c : string) : M (list pyval) :=
  df ← read_frame r; lift (df_getitem df c).

(** [df.head()]: a new frame with the first five rows. *)
Definition head (r : nat) : M nat :=
  df ← read_frame r;
  new_frame {| df_columns := df_columns df; df_rows := take 5 (df_rows df) |}.

(** All columns are as long as the first. *)
Definition same_length (d : coldict) : bool :=
  match d with
  | [] => true
  | (_, c) :: d' => forallb (fun kc => Nat.eqb (length kc.2) (length c)) d'
  end.

(** The column as the dataset stores it, unless the library rejects it.
    An empty column is always taken. *)
Definition stored (col : list pyval) : Exn + list pyval :=
  match col with
  | [] => inr []
  | _ =>
      match arrow_column sdk col with
      | inl e => inl (External e)
      | inr f => inr (f <$> col)
      end
  end.

(** The columns of a dict, converted in the dict's order; the first
    column rejected ends the conversion. *)
Fixpoint stored_columns (d : coldict) : Exn + coldict :=
  match d with
  | [] => inr []
  | (k, col) :: d' =>
      match stored col with
      | inl e => inl e
      | inr col' =>
          match stored_columns d' with
          | inl e => inl e
          | inr d'' => inr ((k, col') :: d'')
          end
      end
  end.

(** What [Dataset.from_dict] makes of a dict: every column is converted,
    then columns of different lengths are rejected; the dataset has the
    dict's keys, in the dict's order. *)
Definition pack (d : coldict) : Exn + Dataset :=
  match stored_columns d with
  | inl e => inl e
  | inr d' => if same_length d' then inr {| ds_data := d' |} else inl ArrowInvalid
  end.

(** [Dataset.from_dict]. *)
Definition from_dict (d : coldict) : M Dataset :=
  local (EFromDict d) (pack d).

(** [len(ds)]. *)
Definition num_rows (ds : Dataset) : nat :=
  match ds_data ds with
  | [] => 0%nat
  | (_, c) :: _ => length c
  end.

(** The frame with the columns of [ds] as they are, row by row. *)
Definition dataset_frame (ds : Dataset) : DataFrame :=
  {| df_columns := column_names ds;
     df_rows := (fun i => (fun kc => nth i kc.2 PNone) <$> ds_data ds)
                  <$> seq 0 (num_rows ds) |}.

(** The columns of a dataset with their cells as [Dataset.to_pandas]
    converts them. *)
Definition pandas_columns (ds : Dataset) : Dataset :=
  {| ds_data := (fun kc => (kc.1, pandas_column sdk kc.2 <$> kc.2)) <$> ds_data ds |}.

(** [Dataset.to_pandas]: a new frame with the converted columns. *)
Definition dataset_to_pandas (ds : Dataset) : M nat :=
  _ ← local (EDatasetToPandas ds) (inr tt);
  new_frame (dataset_frame (pandas_columns ds)).

(** ** The notebook's functions *)

(** [def build_query_engine(documents)].  The arguments of
    [from_documents] are evaluated left to right. *)
Definition build_query_engine (documents : Documents sdk) : M (QueryEngine sdk) :=
  service_context ← call (EServiceContext 512) (service_context_from_defaults sdk 512);
  embed_model ← call EOpenAIEmbedding (openai_embedding sdk);
  vector_index ← call (EFromDocuments documents service_context embed_model)
                      (from_documents sdk documents service_context embed_model);
  query_engine ← call (EAsQueryEngine vector_index 2) (as_query_engine sdk vector_index 2);
  mret query_engine.

(** [c.node.get_content()]. *)
Definition node_content (c : NodeWithScore (Node sdk)) : M string :=
  call (EGetContent (node c)) (get_content sdk (node c)).

(** [def generate_single_response(query_engine, question)]: the dict with
    the response's text and the contents of its source nodes. *)
Definition generate_single_response (query_engine : QueryEngine sdk) (question : pyval)
  : M (list (string * pyval)) :=
  resp ← call (EQuery query_engine question) (query sdk query_engine question);
  contexts ← mapM node_content (source_nodes resp);
  mret [("answer", PStr (response resp)); ("contexts", PList (PStr <$> contexts))].

(** [def generate_ragas_dataset(query_engine, test_df)].  The questions
    are asked by a list comprehension, in order; the ground_truth column is
    read when the dict is built, after all the questions were asked. *)
Definition generate_ragas_dataset (query_engine : QueryEngine sdk) (test_df : nat)
  : M Dataset :=
  test_questions ← getitem test_df "question";
  responses ← mapM (generate_single_response query_engine) test_questions;
  answers ← mapM (fun r => lift (dict_getitem r "answer")) responses;
  contexts ← mapM (fun r => lift (dict_getitem r "contexts")) responses;
  ground_truth ← getitem test_df "ground_truth";
  ds ← from_dict [("question", test_questions); ("answer", answers);
                  ("contexts", contexts); ("ground_truth", ground_truth)];
  mret ds.

(** ** The notebook's literals *)

(** The literals of the cells. *)
Definition dir_path : string := "./prompt-engineering-papers".

(** The weights are the floats 0.5 and 0.25, which are the rationals 1/2
    and 1/4 exactly. *)
Definition distribution : list (Evolution * Q) :=
  [(simple, 1 # 2); (reasoning, 1 # 4); (multi_context, 1 # 4)]%Q.

Definition question : pyval :=
  PStr "What are some strategies proposed to enhance the in-context learning capability of language models?".

Definition validation_dataset_config : pyval :=
  PDict [("contextColumnName", PStr "contexts");
         ("questionColumnName", PStr "question");
         ("inputVariableNames", PList [PStr "question"]);
         ("label", PStr "validation");
         ("outputColumnName", PStr "answer");
         ("groundTruthColumnName", PStr "ground_truth")].

Definition model_config : pyval :=
  PDict [("inputVariableNames", PList [PStr "question"]);
         ("modelType", PStr "shell");
         ("metadata", PDict [("top_k", PInt 2); ("chunk_size", PInt 512);
                             ("embeddings", PStr "OpenAI")])].

(** ** The cells, in order *)

(** The bash cell. *)
Definition cell_clone : M unit :=
  let cmd := "git clone https://huggingface.co/datasets/explodinggradients/prompt-engineering-papers" in
  call (EShell cmd) (shell sdk cmd).

(** [os.environ["OPENAI_API_KEY"] = ...]. *)
Definition cell_environ : M unit :=
  call (ESetEnv "OPENAI_API_KEY" "YOUR_OPENAI_API_KEY_HERE")
       (setenv sdk "OPENAI_API_KEY" "YOUR_OPENAI_API_KEY_HERE").

(** Synthetic test data generation; the cell leaves the globals
    [documents] and [test_df], and shows [test_df.head()]. *)
Definition cell_testset : M (Documents sdk * nat) :=
  reader ← call (ESimpleDirectoryReader dir_path 2) (simple_directory_reader sdk dir_path 2);
  documents ← call (ELoadData reader) (load_data sdk reader);
  generator ← call EWithOpenai (with_openai sdk);
  testset ← call (EGenerate generator documents 10 distribution)
                 (generate_with_llamaindex_docs sdk generator documents 10 distribution);
  df ← call (ETestsetToPandas testset) (testset_to_pandas sdk testset);
  test_df ← new_frame df;
  _ ← head test_df;
  mret (documents, test_df).

(** [nest_asyncio.apply()]. *)
Definition cell_nest_asyncio : M unit :=
  call ENestAsyncioApply (nest_asyncio_apply sdk).

(** Commit to Openlayer. *)
Definition cell_client : M (Client sdk) :=
  call (EOpenlayerClient "YOUR_OPENLAYER_API_KEY_HERE")
       (openlayer_client sdk "YOUR_OPENLAYER_API_KEY_HERE").

Definition cell_project (client : Client sdk) : M (Project sdk) :=
  call (ECreateProject client "My-Rag-Project" LLM
                       "Evaluating an LLM used for product development.")
       (create_project sdk client "My-Rag-Project" LLM
                       "Evaluating an LLM used for product development.").

Definition cell_add_dataframe (project : Project sdk) (ragas_df : nat) : M unit :=
  df ← read_frame ragas_df;
  call (EAddDataframe project df validation_dataset_config)
       (add_dataframe sdk project df validation_dataset_config).

Definition cell_add_model (project : Project sdk) : M unit :=
  call (EAddModel project model_config) (add_model sdk project model_config).

Definition cell_push (project : Project sdk) : M unit :=
  _ ← call (ECommit project "Initial commit!") (commit sdk project "Initial commit!");
  call (EPush project) (push sdk project).

(** The whole notebook, run top to bottom. *)
Definition notebook : M unit :=
  _ ← cell_clone;
  _ ← cell_environ;
  '(documents, test_df) ← cell_testset;
  _ ← cell_nest_asyncio;
  query_engine ← build_query_engine documents;
  _ ← generate_single_response query_engine question;
  ragas_dataset ← generate_ragas_dataset query_engine test_df;
  ragas_df ← dataset_to_pandas ragas_dataset;
  client ← cell_client;
  project ← cell_project client;
  _ ← cell_add_dataframe project ragas_df;
  _ ← cell_add_model project;
  cell_push project.

End Script.

Arguments KeyError {sdk} k.
Arguments EShell {sdk} cmd.
Arguments ESetEnv {sdk} name value.
Arguments ESimpleDirectoryReader {sdk} path num_files_limit.
Arguments ELoadData {sdk} rd.
Arguments EWithOpenai {sdk}.
Arguments EGenerate {sdk} g docs test_size distributions.
Arguments ETestsetToPandas {sdk} t.
Arguments ENestAsyncioApply {sdk}.
Arguments EServiceContext {sdk} chunk_size.
Arguments EOpenAIEmbedding {sdk}.
Arguments EFromDocuments {sdk} docs sc em.
Arguments EAsQueryEngine {sdk} vi similarity_top_k.
Arguments EQuery {sdk} eng q.
Arguments EGetContent {sdk} n.
Arguments EFromDict {sdk} d.
Arguments EDatasetToPandas {sdk} ds.
Arguments EOpenlayerClient {sdk} api_key.
Arguments ECreateProject {sdk} c name task_type description.
Arguments EAddDataframe {sdk} p df config.
Arguments EAddModel {sdk} p config.
Arguments ECommit {sdk} p message.
Arguments EPush {sdk} p.
Arguments world {sdk} s.
Arguments frames {sdk} s.
Arguments set_world {sdk} w s.
Arguments ret {sdk A} a.
Arguments raise {sdk A} e.
Arguments bind {sdk A B} m f.
Arguments call {sdk A} ev f.
Arguments local {sdk A} ev r.
Arguments lift {sdk A} r.
Arguments read_frame {sdk} r.
Arguments new_frame {sdk} df.
Arguments getitem {sdk} r c.
Arguments head {sdk} r.
Arguments from_dict {sdk} d.
Arguments dataset_to_pandas {sdk} ds.
Arguments build_query_engine {sdk} documents.
Arguments node_content {sdk} c.
Arguments generate_single_response {sdk} query_engine question.
Arguments generate_ragas_dataset {sdk} query_engine test_df.
Arguments notebook {sdk}.
Arguments ArrowInvalid {sdk}.
Arguments InvalidFrame {sdk} r.
Arguments External {sdk} e.
Arguments outcome {sdk A} x.
Arguments final {sdk A} x.
Arguments trace {sdk A} x.
Arguments events {sdk} t.

(** * Specification vocabulary *)

Section Vocabulary.

Context {sdk : Sdk}.

Implicit Types (s : State sdk) (t : list (Call sdk)) (e : Exn sdk).
Implicit Types (eng : QueryEngine sdk) (docs : Documents sdk) (q : pyval) (r : nat).

(** ** The dataset and where its entries come from *)

(** The exception a result stands for, if it does. *)
Definition raised {A} (x : Exn sdk + A) : option (Exn sdk) :=
  match x with
  | inl e => Some e
  | inr _ => None
  end.

(** The dict [generate_ragas_dataset] builds. *)
Definition four_columns (qs ans cs gts : list pyval) : coldict :=
  [("question", qs); ("answer", ans); ("contexts", cs); ("ground_truth", gts)].

(** The dataset holds the column [col] under the name [c]: the library
    took the column, and the dataset has what it stored of it. *)
Definition holds (ds : Dataset) (c : string) (col : list pyval) : Prop :=
  exists col', stored sdk col = inr col' /\ column ds c = Some col'.

(** The "answer" entry of a response dict. *)
Definition answer_of (d : list (string * pyval)) : pyval :=
  default PNone (assoc "answer" d).

(** The "contexts" entry of a response dict. *)
Definition contexts_of (d : list (string * pyval)) : pyval :=
  default PNone (assoc "contexts" d).

(** The dict [generate_single_response] builds from a response and the
    contents of its source nodes. *)
Definition response_dict (rsp : Response (Node sdk)) (cs : list string)
  : list (string * pyval) :=
  [("answer", PStr (response rsp)); ("contexts", PList (PStr <$> cs))].

(** Neither [query] on this engine nor [get_content] ever raises. *)
Definition never_raises (eng : QueryEngine sdk) : Prop :=
  (forall q w, exists rsp w', query sdk eng q w = (inr rsp, w')) /\
  (forall n w, exists c w', get_content sdk n w = (inr c, w')).

(** The content [x] is what [get_content] returned for the node [nd]. *)
Definition content_of (nd : NodeWithScore (Node sdk)) (x : string) : Prop :=
  exists w w', get_content sdk (node nd) w = (inr x, w').

(** The pair of an answer entry and a contexts entry was read off one
    response of the engine to one of the questions [qs]. *)
Definition from_response (eng : QueryEngine sdk) (qs : list pyval) (a c : pyval) : Prop :=
  exists q w rsp w' cs,
    q ∈ qs /\ query sdk eng q w = (inr rsp, w') /\
    a = PStr (response rsp) /\ c = PList (PStr <$> cs) /\
    Forall2 content_of (source_nodes rsp) cs.

(** The dict [generate_ragas_dataset] makes of a test frame with this
    engine: the frame's question and ground_truth columns, and for every
    question an answer with its contexts, read off a response of the
    engine. *)
Definition dataset_of (eng : QueryEngine sdk) (df : DataFrame) (d : coldict) : Prop :=
  exists qs gts answers contexts,
    df_getitem sdk df "question" = inr qs /\
    df_getitem sdk df "ground_truth" = inr gts /\
    length answers = length qs /\ length contexts = length qs /\
    Forall2 (from_response eng qs) answers contexts /\
    d = four_columns qs answers contexts gts.

(** ** Exceptions *)

(** Whatever a call of [m] raises is what [m] raises, and that call is the
    last thing [m] did. *)
Definition propagates {A} (m : M sdk A) : Prop :=
  forall s ev e,
    (ev, Some e) ∈ trace (m s) ->
    outcome (m s) = inl e /\ last (trace (m s)) = Some (ev, Some e).

(** ** State *)

(** Every run of [m] ends in a state that [R] relates to the state it
    started in. *)
Definition preserves {A} (R : relation (State sdk)) (m : M sdk A) : Prop :=
  forall s, R s (final (m s)).

(** The second state has the frames of the first, unchanged. *)
Definition same_frames : relation (State sdk) :=
  fun s s' => frames s' = frames s.

(** The second state is the first. *)
Definition unchanged : relation (State sdk) :=
  fun s s' => s' = s.

(** The SDK calls the two functions make do not change the world. *)
Definition read_only (eng : QueryEngine sdk) : Prop :=
  (forall q w, (query sdk eng q w).2 = w) /\
  (forall n w, (get_content sdk n w).2 = w).

(** ** Two runs *)

(** What the engine returns does not depend on the world it is asked in. *)
Definition fixed_responses (eng : QueryEngine sdk) : Prop :=
  (forall q w1 w2, (query sdk eng q w1).1 = (query sdk eng q w2).1) /\
  (forall n w1 w2, (get_content sdk n w1).1 = (get_content sdk n w2).1).

(** Two states hold the same frame at [r]. *)
Definition same_frame (r : nat) s1 s2 : Prop := frames s1 !! r = frames s2 !! r.

(** From states with the same frame at [r], [m] has the same outcome and
    makes the same calls. *)
Definition deterministic {A} (r : nat) (m : M sdk A) : Prop :=
  forall s1 s2, same_frame r s1 s2 ->
    outcome (m s1) = outcome (m s2) /\ trace (m s1) = trace (m s2) /\
    same_frame r (final (m s1)) (final (m s2)).

(** Two runs of [generate_ragas_dataset] on one frame end differently. *)
Definition two_runs_differ (eng : QueryEngine sdk) (r : nat) : Prop :=
  exists s1 s2, same_frame r s1 s2 /\
    outcome (generate_ragas_dataset eng r s1) <> outcome (generate_ragas_dataset eng r s2).

(** ** The steps of the script *)

Inductive Stage : Type :=
| Setup
| LoadDocuments
| GenerateTestset
| BuildQueryEngine
| GenerateAnswers
| PackageDataset
| Upload.

(** The position of a step in the notebook. *)
Definition stage_index (st : Stage) : nat :=
  match st with
  | Setup => 0
  | LoadDocuments => 1
  | GenerateTestset => 2
  | BuildQueryEngine => 3
  | GenerateAnswers => 4
  | PackageDataset => 5
  | Upload => 6
  end.

(** The step an external call belongs to. *)
Definition stage (ev : Event sdk) : Stage :=
  match ev with
  | EShell _ | ESetEnv _ _ => Setup
  | ESimpleDirectoryReader _ _ | ELoadData _ => LoadDocuments
  | EWithOpenai | EGenerate _ _ _ _ | ETestsetToPandas _ => GenerateTestset
  | ENestAsyncioApply | EServiceContext _ | EOpenAIEmbedding
  | EFromDocuments _ _ _ | EAsQueryEngine _ _ => BuildQueryEngine
  | EQuery _ _ | EGetContent _ => GenerateAnswers
  | EFromDict _ | EDatasetToPandas _ => PackageDataset
  | EOpenlayerClient _ | ECreateProject _ _ _ _ | EAddDataframe _ _ _
  | EAddModel _ _ | ECommit _ _ | EPush _ => Upload
  end.

(** [ev1] belongs to the step of [ev2] or to an earlier one. *)
Definition not_after (ev1 ev2 : Event sdk) : Prop :=
  (stage_index (stage ev1) <= stage_index (stage ev2))%nat.

(** The calls of a trace come step by step, all between [lo] and [hi]. *)
Definition in_order (lo hi : nat) (evs : list (Event sdk)) : Prop :=
  StronglySorted not_after evs /\
  Forall (fun ev => (lo <= stage_index (stage ev) <= hi)%nat) evs.

(** Every run of [m] makes its calls in order, between [lo] and [hi]. *)
Definition staged {A} (lo hi : nat) (m : M sdk A) : Prop :=
  forall s, in_order lo hi (events (trace (m s))).

(** ** The calls of the script *)

(** Every call [m] makes satisfies [P]. *)
Definition all_events {A} (P : Event sdk -> Prop) (m : M sdk A) : Prop :=
  forall s, Forall P (events (trace (m s))).

(** The literal arguments of the script's calls. *)
Definition script_event (ev : Event sdk) : Prop :=
  match ev with
  | EShell cmd =>
      cmd = "git clone https://huggingface.co/datasets/explodinggradients/prompt-engineering-papers"
  | ESetEnv name value =>
      name = "OPENAI_API_KEY" /\ value = "YOUR_OPENAI_API_KEY_HERE"
  | ESimpleDirectoryReader path limit => path = dir_path /\ limit = 2
  | EGenerate _ _ test_size distributions =>
      test_size = 10 /\ distributions = distribution
  | EServiceContext chunk_size => chunk_size = 512
  | EAsQueryEngine _ top_k => top_k = 2
  | EFromDict d => d.*1 = ["question"; "answer"; "contexts"; "ground_truth"]
  | EOpenlayerClient api_key => api_key = "YOUR_OPENLAYER_API_KEY_HERE"
  | ECreateProject _ name task_type description =>
      name = "My-Rag-Project" /\ task_type = LLM /\
      description = "Evaluating an LLM used for product development."
  | EAddDataframe _ _ config => config = validation_dataset_config
  | EAddModel _ config => config = model_config
  | ECommit _ message => message = "Initial commit!"
  | _ => True
  end.

(** The calls of a run of the notebook that reaches its end; [answering]
    stands for the calls of the demonstration question and of the
    questions of the test frame, [d] for the dict handed to the datasets
    library and [ds] for the dataset it made of it. *)
Definition complete_trace (rd : Reader sdk) (docs : Documents sdk) (gen : Generator sdk)
    (ts : Testset sdk) (sc : ServiceContext sdk) (em : EmbedModel sdk)
    (vi : VectorIndex sdk) (answering : list (Event sdk)) (d : coldict) (ds : Dataset)
    (c : Client sdk) (p : Project sdk) : list (Event sdk) :=
  [EShell "git clone https://huggingface.co/datasets/explodinggradients/prompt-engineering-papers";
   ESetEnv "OPENAI_API_KEY" "YOUR_OPENAI_API_KEY_HERE";
   ESimpleDirectoryReader dir_path 2;
   ELoadData rd;
   EWithOpenai;
   EGenerate gen docs 10 distribution;
   ETestsetToPandas ts;
   ENestAsyncioApply;
   EServiceContext 512;
   EOpenAIEmbedding;
   EFromDocuments docs sc em;
   EAsQueryEngine vi 2]
  ++ answering ++
  [EFromDict d;
   EDatasetToPandas ds;
   EOpenlayerClient "YOUR_OPENLAYER_API_KEY_HERE";
   ECreateProject c "My-Rag-Project" LLM "Evaluating an LLM used for product development.";
   EAddDataframe p (dataset_frame (pandas_columns sdk ds)) validation_dataset_config;
   EAddModel p model_config;
   ECommit p "Initial commit!";
   EPush p].

(** ** Credentials *)

(** A credential the script hands over: an environment variable it sets
    or the key it gives to the client's constructor. *)
Inductive Credential : Type :=
| EnvVar (name value : string)
| ClientKey (api_key : string).

(** The credential a call hands over, if it does. *)
Definition credential (ev : Event sdk) : option Credential :=
  match ev with
  | ESetEnv name value => Some (EnvVar name value)
  | EOpenlayerClient api_key => Some (ClientKey api_key)
  | _ => None
  end.

Definition openai_key : Credential :=
  EnvVar "OPENAI_API_KEY" "YOUR_OPENAI_API_KEY_HERE".

Definition openlayer_key : Credential :=
  ClientKey "YOUR_OPENLAYER_API_KEY_HERE".

(** ** The distribution and the configs *)





(** [v[k]] on a dict value. *)
Definition pyget (k : string) (v : pyval) : option pyval :=
  match v with
  | PDict d => assoc k d
  | _ => None
  end.

(** The column names a dataset config refers to. *)
Definition config_columns (cfg : pyval) : list pyval :=
  omap (fun k => pyget k cfg)
       ["contextColumnName"; "questionColumnName"; "outputColumnName";
        "groundTruthColumnName"].

(** A call of the pipeline agrees with the uploaded configs. *)
Definition config_consistent (ev : Event sdk) : Prop :=
  match ev with
  | EServiceContext chunk_size =>
      pyget "metadata" model_config ≫= pyget "chunk_size" = Some (PInt chunk_size)
  | EAsQueryEngine _ top_k =>
      pyget "metadata" model_config ≫= pyget "top_k" = Some (PInt top_k)
  | EFromDict d => config_columns validation_dataset_config ≡ₚ PStr <$> d.*1
  | EAddDataframe _ _ config => config = validation_dataset_config
  | EAddModel _ config => config = model_config
  | _ => True
  end.

(** ** Further notions about the calls, the exceptions and the frames *)

(** The question a call asks the engine, if it is a query. *)
Definition asked (ev : Event sdk) : option pyval :=
  match ev with
  | EQuery _ q => Some q
  | _ => None
  end.

(** The exceptions SDK calls raise. *)
Definition sdk_error (x : Exn sdk) : Prop :=
  exists err : SdkError sdk, x = External err.

(** The exceptions a missing column of the test frame or an SDK call
    give rise to. *)
Definition column_or_sdk_error (x : Exn sdk) : Prop :=
  x = KeyError "question" \/ x = KeyError "ground_truth" \/ sdk_error x.

(** Started with frames satisfying [P], [m] either returns a value and
    frames satisfying [Q], or raises an exception in [E]. *)
Definition safe {A} (E : Exn sdk -> Prop) (P : list DataFrame -> Prop) (m : M sdk A)
    (Q : A -> list DataFrame -> Prop) : Prop :=
  forall s, P (frames s) ->
    match outcome (m s) with
    | inl x => E x
    | inr a => Q a (frames (final (m s)))
    end.

(** [m] looks at the world only: from two states with the same world it
    has the same outcome, makes the same calls and leaves the same world. *)
Definition world_only {A} (m : M sdk A) : Prop :=
  forall s1 s2, world s1 = world s2 ->
    outcome (m s1) = outcome (m s2) /\ trace (m s1) = trace (m s2) /\
    world (final (m s1)) = world (final (m s2)).

(** The second state has the frames of the first, at their positions, and
    maybe new ones after them. *)
Definition grows : relation (State sdk) :=
  fun s s' => frames s `prefix_of` frames s'.

(** The frame [df.head()] gives. *)
Definition first_rows (df : DataFrame) : DataFrame :=
  {| df_columns := df_columns df; df_rows := take 5 (df_rows df) |}.

(** In every run of [m], a call in [P] is made only if a call in [K] was
    made too. *)
Definition gated {A} (P : Event sdk -> Prop) (K : Call sdk -> Prop) (m : M sdk A) : Prop :=
  forall s ev, ev ∈ events (trace (m s)) -> P ev -> exists c, c ∈ trace (m s) /\ K c.

(** A packaging call that returned. *)
Definition packaged (c : Call sdk) : Prop :=
  exists d, c = (EFromDict d, None).

(** A call of as_query_engine, with the notebook's top_k, that returned. *)
Definition engine_built (c : Call sdk) : Prop :=
  exists vi, c = (EAsQueryEngine vi 2, None).

(** The calls [generate_single_response] makes when it returns. *)
Definition response_calls (eng : QueryEngine sdk) (q : pyval)
    (rsp : Response (Node sdk)) : list (Event sdk) :=
  EQuery eng q :: ((fun c => EGetContent (node c)) <$> source_nodes rsp).

End Vocabulary.

Arguments holds : clear implicits.

(** * Small SDKs to run the script on

    The world counts the calls made ([tick] says how a call advances the
    count); the engine answers every question but the [refused] one; the
    test set has the frame [frame]; the datasets library minds the kinds of
    the cells of a column. *)

Definition toy_frame : DataFrame :=
  {| df_columns := ["question"; "contexts"; "ground_truth"; "evolution_type"];
     df_rows := [[PStr "q1"; PList [PStr "c1"]; PStr "g1"; PStr "simple"];
                 [PStr "q2"; PList [PStr "c2"]; PStr "g2"; PStr "reasoning"]] |}.

Definition toy_query (refused : option string) (q : pyval) : string + Response string :=
  match q with
  | PStr s =>
      if bool_decide (refused = Some s) then inl "rate limit"
      else inr {| response := String.append "answer to " s;
                  source_nodes := [{| node := String.append "first passage for " s |};
                                   {| node := String.append "second passage for " s |}] |}
  | _ => inr {| response := ""; source_nodes := [] |}
  end.

(** The kind of a cell that is present. *)
Definition kind (v : pyval) : option nat :=
  match v with
  | PNone => None
  | PBool _ => Some 1%nat
  | PInt _ => Some 2%nat
  | PFloat _ => Some 3%nat
  | PStr _ => Some 4%nat
  | PList _ => Some 5%nat
  | PDict _ => Some 6%nat
  end.

(** The cells that are present are of one kind. *)
Definition one_kind (col : list pyval) : bool :=
  match omap kind col with
  | [] => true
  | k :: ks => forallb (Nat.eqb k) ks
  end.

(** The library takes a column when its cells are of one kind, missing
    cells apart, and stores the cells as they are. *)
Definition typed_arrow (col : list pyval) : string + (pyval -> pyval) :=
  if one_kind col then inr id else inl "ArrowTypeError".

(** The float of an integer. *)
Definition float_of (z : Z) : spec_float :=
  match z with
  | Z0 => S754_zero false
  | Zpos m => S754_finite false m 0
  | Zneg m => S754_finite true m 0
  end.

(** The column has a missing cell, and integers otherwise. *)
Definition nullable_ints (col : list pyval) : bool :=
  existsb (fun v => bool_decide (kind v = None)) col &&
  forallb (fun v => bool_decide (kind v = None \/ kind v = Some 2%nat)) col.

(** The conversion to pandas turns a column of integers with missing
    cells into floats, nan for the missing ones, and leaves the other
    columns as they are. *)
Definition typed_pandas (col : list pyval) (v : pyval) : pyval :=
  if nullable_ints col then
    match v with
    | PNone => PFloat S754_nan
    | PInt z => PFloat (float_of z)
    | _ => v
    end
  else v.

Definition toy_sdk_with (tick : nat -> nat) (refused : option string)
    (frame : DataFrame) : Sdk :=
  {| World := nat;
     SdkError := string;
     Reader := unit; Documents := unit; Generator := unit; Testset := unit;
     ServiceContext := unit; EmbedModel := unit; VectorIndex := unit;
     QueryEngine := unit; Node := string; Client := unit; Project := unit;
     shell := fun _ w => (inr tt, tick w);
     setenv := fun _ _ w => (inr tt, tick w);
     simple_directory_reader := fun _ _ w => (inr tt, tick w);
     load_data := fun _ w => (inr tt, tick w);
     with_openai := fun w => (inr tt, tick w);
     generate_with_llamaindex_docs := fun _ _ _ _ w => (inr tt, tick w);
     testset_to_pandas := fun _ w => (inr frame, tick w);
     nest_asyncio_apply := fun w => (inr tt, tick w);
     service_context_from_defaults := fun _ w => (inr tt, tick w);
     openai_embedding := fun w => (inr tt, tick w);
     from_documents := fun _ _ _ w => (inr tt, tick w);
     as_query_engine := fun _ _ w => (inr tt, tick w);
     query := fun _ q w => (toy_query refused q, tick w);
     get_content := fun n w => (inr n, tick w);
     arrow_column := typed_arrow;
     pandas_column := typed_pandas;
     openlayer_client := fun _ w => (inr tt, tick w);
     create_project := fun _ _ _ _ w => (inr tt, tick w);
     add_dataframe := fun _ _ _ w => (inr tt, tick w);
     add_model := fun _ _ w => (inr tt, tick w);
     commit := fun _ _ w => (inr tt, tick w);
     push := fun _ w => (inr tt, tick w) |}.

(** The test set has the frame [toy_frame]. *)
Definition toy_sdk (tick : nat -> nat) (refused : option string) : Sdk :=
  toy_sdk_with tick refused toy_frame.

(** Every call advances the count; no question is refused. *)
Definition counting_sdk : Sdk := toy_sdk S None.

(** The calls leave the world alone. *)
Definition quiet_sdk : Sdk := toy_sdk id None.

(** The engine refuses the question q2. *)
Definition refusing_sdk : Sdk := toy_sdk S (Some "q2").

(** A state in which the test frame is frame 0. *)
Definition toy_state (sdk : Sdk) (w : World sdk) : State sdk :=
  {| world := w; frames := [toy_frame] |}.

(** The state the notebook starts in: no frame yet. *)
Definition start (sdk : Sdk) (w : World sdk) : State sdk :=
  {| world := w; frames := [] |}.

(** The dataset the toy engine gives on the toy frame. *)
Definition toy_dataset : Dataset :=
  {| ds_data :=
       [("question", [PStr "q1"; PStr "q2"]);
        ("answer", [PStr "answer to q1"; PStr "answer to q2"]);
        ("contexts",
         [PList [PStr "first passage for q1"; PStr "second passage for q1"];
          PList [PStr "first passage for q2"; PStr "second passage for q2"]]);
        ("ground_truth", [PStr "g1"; PStr "g2"])] |}.

(** The exception the refusing engine raises. *)
Definition rate_limit : Exn refusing_sdk := External (sdk:=refusing_sdk) "rate limit".

(** A frame without a question column. *)
Definition unlabelled_frame : DataFrame :=
  {| df_columns := ["prompt"; "ground_truth"];
     df_rows := [[PStr "q1"; PStr "g1"]; [PStr "q2"; PStr "g2"]] |}.

(** A frame without a ground_truth column. *)
Definition unanswered_frame : DataFrame :=
  {| df_columns := ["question"; "contexts"];
     df_rows := [[PStr "q1"; PList [PStr "c1"]]; [PStr "q2"; PList [PStr "c2"]]] |}.

(** A frame with the columns of the test frame and no row. *)
Definition empty_frame : DataFrame :=
  {| df_columns := ["question"; "contexts"; "ground_truth"; "evolution_type"];
     df_rows := [] |}.

(** The test frame with other contexts and without the evolution type. *)
Definition other_frame : DataFrame :=
  {| df_columns := ["ground_truth"; "question"; "contexts"];
     df_rows := [[PStr "g1"; PStr "q1"; PList []];
                 [PStr "g2"; PStr "q2"; PList [PStr "elsewhere"]]] |}.

(** A frame with two columns labelled question. *)
Definition relabelled_frame : DataFrame :=
  {| df_columns := ["question"; "question"; "ground_truth"];
     df_rows := [[PStr "q1"; PStr "p1"; PStr "g1"];
                 [PStr "q2"; PStr "p2"; PStr "g2"]] |}.

(** A frame whose ground_truth column mixes strings and integers. *)
Definition mixed_frame : DataFrame :=
  {| df_columns := ["question"; "ground_truth"];
     df_rows := [[PStr "q1"; PStr "g1"]; [PStr "q2"; PInt 2]] |}.

(** A frame whose ground_truth column has an integer and a missing cell. *)
Definition nullable_frame : DataFrame :=
  {| df_columns := ["question"; "ground_truth"];
     df_rows := [[PStr "q1"; PInt 1]; [PStr "q2"; PNone]] |}.

(** Every call advances the count, no question is refused, and the test
    set has the frame [frame]. *)
Definition testset_sdk (frame : DataFrame) : Sdk :=
  toy_sdk_with S None frame.

(** What the library raises on a column of mixed kinds. *)
Definition arrow_type_error : Exn (testset_sdk mixed_frame) :=
  External (sdk:=testset_sdk mixed_frame) "ArrowTypeError".

(** A state whose frame 0 is [df]. *)
Definition state_with (sdk : Sdk) (df : DataFrame) (w : World sdk) : State sdk :=
  {| world := w; frames := [df] |}.

(** * Properties *)

Section Runs.

Context {sdk : Sdk}.

Implicit Types (s : State sdk) (t : list (Call sdk)) (e : Exn sdk).
Implicit Types (eng : QueryEngine sdk) (docs : Documents sdk) (q : pyval) (r : nat).

(** ** Running [bind] and [mapM] *)

Lemma run_bind {A B} (m : M sdk A) (f : A -> M sdk B) s :
  (m ≫= f) s =
  match m s with
  | (inl e, s', t) => (inl e, s', t)
  | (inr a, s', t) => match f a s' with (r, s'', t') => (r, s'', t ++ t') end
  end.
Proof. reflexivity. Qed.

Lemma run_bind_inl {A B} (m : M sdk A) (f : A -> M sdk B) s e s' t :
  m s = (inl e, s', t) -> (m ≫= f) s = (inl e, s', t).
Proof. intros H. rewrite run_bind, H. reflexivity. Qed.

Lemma run_bind_inr {A B} (m : M sdk A) (f : A -> M sdk B) s a s' t :
  m s = (inr a, s', t) ->
  (m ≫= f) s = ((f a s').1.1, (f a s').1.2, t ++ (f a s').2).
Proof. intros H. rewrite run_bind, H. destruct (f a s') as [[r s''] t']. reflexivity. Qed.

Lemma run_bind_returns {A B} (m : M sdk A) (f : A -> M sdk B) s b s2 t :
  (m ≫= f) s = (inr b, s2, t) ->
  exists a s1 t1 t2,
    m s = (inr a, s1, t1) /\ f a s1 = (inr b, s2, t2) /\ t = t1 ++ t2.
Proof.
  rewrite run_bind. destruct (m s) as [[[e|a] s1] t1]; [discriminate|].
  destruct (f a s1) as [[r s''] t2] eqn:Hf. intros [= -> -> <-].
  exists a, s1, t1, t2. auto.
Qed.

Lemma run_mret {A} (a : A) s : (mret a : M sdk A) s = (inr a, s, []).
Proof. reflexivity. Qed.

Lemma mapM_nil {A B} (f : A -> M sdk B) : mapM f [] = mret [].
Proof. reflexivity. Qed.

Lemma mapM_cons {A B} (f : A -> M sdk B) x l :
  mapM f (x :: l) = (y ← f x; k ← mapM f l; mret (y :: k)).
Proof. reflexivity. Qed.


Lemma mapM_app_inr {A B} (f : A -> M sdk B) l1 l2 s ys1 s1 t1 :
  mapM f l1 s = (inr ys1, s1, t1) ->
  mapM f (l1 ++ l2) s =
  match mapM f l2 s1 with
  | (inl e, s', t2) => (inl e, s', t1 ++ t2)
  | (inr ys2, s', t2) => (inr (ys1 ++ ys2), s', t1 ++ t2)
  end.
Proof.
  revert s ys1 t1. induction l1 as [|x l1 IH]; intros s ys1 t1.
  - intros [= <- <- <-]. simpl. by destruct (mapM f l2 s) as [[[?|?] ?] ?].
  - rewrite <- app_comm_cons, !mapM_cons, !run_bind.
    destruct (f x s) as [[[e0|y] s0] t0]; [done|].
    rewrite !run_bind.
    destruct (mapM f l1 s0) as [[[e1|k] s2] t2] eqn:Hk; [done|].
    rewrite run_mret. intros [= <- <- <-].
    rewrite (IH _ _ _ Hk).
    destruct (mapM f l2 s2) as [[[e3|k3] s3] t3].
    + by rewrite app_nil_r, app_assoc.
    + rewrite run_mret. by rewrite !app_nil_r, app_assoc.
Qed.


Lemma mapM_cons_returns {A B} (f : A -> M sdk B) x l s ys s' t :
  mapM f (x :: l) s = (inr ys, s', t) ->
  exists y s1 t1 k t2,
    f x s = (inr y, s1, t1) /\ mapM f l s1 = (inr k, s', t2) /\
    ys = y :: k /\ t = t1 ++ t2.
Proof.
  rewrite mapM_cons. intros H.
  apply run_bind_returns in H as (y & s1 & t1 & t2 & Hy & H & ->).
  apply run_bind_returns in H as (k & s2 & t3 & t4 & Hk & H & ->).
  rewrite run_mret in H. injection H as <- <- <-.
  exists y, s1, t1, k, t3. by rewrite app_nil_r.
Qed.

Lemma mapM_returns_length {A B} (f : A -> M sdk B) l s ys s' t :
  mapM f l s = (inr ys, s', t) -> length ys = length l.
Proof.
  revert s ys t. induction l as [|x l IH]; intros s ys t.
  - by intros [= <- <- <-].
  - intros H. apply mapM_cons_returns in H as (y & s1 & t1 & k & t2 & _ & Hk & -> & _).
    simpl. f_equal. eauto.
Qed.


(** The first item that raises ends the comprehension with its exception. *)
Lemma mapM_raises_at {A B} (f : A -> M sdk B) l s i x zs si ti e s' t' :
  mapM f (take i l) s = (inr zs, si, ti) -> l !! i = Some x ->
  f x si = (inl e, s', t') ->
  mapM f l s = (inl e, s', ti ++ t').
Proof.
  intros Hz Hx Hf. rewrite <- (take_drop_middle l i x Hx).
  rewrite (mapM_app_inr _ _ _ _ _ _ _ Hz), mapM_cons, run_bind, Hf. done.
Qed.

Lemma mapM_total {A B} (f : A -> M sdk B) l s :
  (forall x s0, exists y s1 t1, f x s0 = (inr y, s1, t1)) ->
  exists ys s' t, mapM f l s = (inr ys, s', t).
Proof.
  intros Hf. revert s. induction l as [|x l IH]; intros s.
  - by exists [], s, [].
  - destruct (Hf x s) as (y & s1 & t1 & Hy).
    destruct (IH s1) as (k & s2 & t2 & Hk).
    exists (y :: k), s2, (t1 ++ t2).
    rewrite mapM_cons, run_bind, Hy, run_bind, Hk, run_mret.
    by rewrite app_nil_r.
Qed.

Lemma mapM_Forall2 {A B} (f : A -> M sdk B) (R : A -> B -> Prop) l s ys s' t :
  (forall x s0 y s1 t1, f x s0 = (inr y, s1, t1) -> R x y) ->
  mapM f l s = (inr ys, s', t) -> Forall2 R l ys.
Proof.
  intros HR. revert s ys t. induction l as [|x l IH]; intros s ys t.
  - intros [= <- <- <-]. constructor.
  - intros H. apply mapM_cons_returns in H as (y & s1 & t1 & k & t2 & Hy & Hk & -> & _).
    constructor; eauto.
Qed.

(** A comprehension of pure lookups that all succeed. *)
Lemma mapM_lift {A B} (g : A -> Exn sdk + B) (h : A -> B) l s :
  Forall (fun x => g x = inr (h x)) l ->
  mapM (fun x => lift (g x)) l s = (inr (h <$> l), s, []).
Proof.
  induction 1 as [|x l Hx _ IH]; [done|].
  rewrite mapM_cons, run_bind, Hx. simpl.
  rewrite run_bind, IH, run_mret. done.
Qed.

End Runs.

(** ** What the script does to the state *)

Section Preservation.

Context {sdk : Sdk} (R : relation (State sdk)) `{!Reflexive R, !Transitive R}.

Implicit Types (s : State sdk) (t : list (Call sdk)) (e : Exn sdk).
Implicit Types (eng : QueryEngine sdk) (q : pyval) (r : nat).

Lemma preserves_ret {A} (a : A) : preserves R (mret a : M sdk A).
Proof. intros s. unfold final. simpl. reflexivity. Qed.

Lemma preserves_lift {A} (x : Exn sdk + A) : preserves R (lift x).
Proof. intros s. destruct x; unfold final; simpl; reflexivity. Qed.

Lemma preserves_local {A} ev (x : Exn sdk + A) : preserves R (local ev x).
Proof. intros s. destruct x; unfold final; simpl; reflexivity. Qed.

Lemma preserves_read r : preserves R (read_frame (sdk:=sdk) r).
Proof.
  intros s. unfold read_frame, final.
  destruct (frames s !! r); simpl; reflexivity.
Qed.

Lemma preserves_bind {A B} (m : M sdk A) (f : A -> M sdk B) :
  preserves R m -> (forall a, preserves R (f a)) -> preserves R (m ≫= f).
Proof.
  intros Hm Hf s. rewrite run_bind. specialize (Hm s).
  destruct (m s) as [[[x|a] s1] t1]; [exact Hm|].
  specialize (Hf a s1). destruct (f a s1) as [[y s2] t2].
  unfold final in *. simpl in *. by etrans.
Qed.

Lemma preserves_mapM {A B} (f : A -> M sdk B) l :
  (forall x, preserves R (f x)) -> preserves R (mapM f l).
Proof.
  intros Hf. induction l as [|x l IH]; [apply preserves_ret|].
  rewrite mapM_cons. apply preserves_bind; [done|]. intros y.
  apply preserves_bind; [done|]. intros k. apply preserves_ret.
Qed.

Lemma preserves_getitem r c : preserves R (getitem (sdk:=sdk) r c).
Proof.
  apply preserves_bind; [apply preserves_read|]. intros df. apply preserves_lift.
Qed.

(** The two functions change the state only through the engine's calls. *)
Section Functions.

Context (eng : QueryEngine sdk).
Hypothesis query_preserves :
  forall q, preserves R (call (EQuery eng q) (query sdk eng q)).
Hypothesis content_preserves :
  forall c : NodeWithScore (Node sdk), preserves R (node_content c).

Lemma preserves_single q : preserves R (generate_single_response eng q).
Proof.
  apply preserves_bind; [apply query_preserves|]. intros rsp.
  apply preserves_bind; [by apply preserves_mapM|].
  intros cs. apply preserves_ret.
Qed.

Lemma preserves_dataset r : preserves R (generate_ragas_dataset eng r).
Proof.
  apply preserves_bind; [apply preserves_getitem|]. intros qs.
  apply preserves_bind; [apply preserves_mapM, preserves_single|].
  intros rs. apply preserves_bind.
  { apply preserves_mapM. intros d. apply preserves_lift. }
  intros answers. apply preserves_bind.
  { apply preserves_mapM. intros d. apply preserves_lift. }
  intros contexts. apply preserves_bind; [apply preserves_getitem|].
  intros gts. apply preserves_bind; [apply preserves_local|].
  intros ds. apply preserves_ret.
Qed.

End Functions.

End Preservation.

Section Frames.

Context {sdk : Sdk}.

Implicit Types (s : State sdk) (eng : QueryEngine sdk) (q : pyval) (r : nat).

#[export] Instance same_frames_refl : Reflexive (same_frames (sdk:=sdk)).
Proof. by intros s. Qed.

#[export] Instance same_frames_trans : Transitive (same_frames (sdk:=sdk)).
Proof. unfold same_frames. intros s1 s2 s3 H1 H2. congruence. Qed.

#[export] Instance unchanged_refl : Reflexive (unchanged (sdk:=sdk)).
Proof. by intros s. Qed.

#[export] Instance unchanged_trans : Transitive (unchanged (sdk:=sdk)).
Proof. unfold unchanged. intros s1 s2 s3 H1 H2. congruence. Qed.

(** An SDK call is given the world only. *)
Lemma keeps_frames_call {A} ev (f : ext (World sdk) (SdkError sdk) A) :
  preserves same_frames (call ev f).
Proof. intros s. unfold call. by destruct (f (world s)) as [[?|?] ?]. Qed.

Lemma keeps_state_call {A} ev (f : ext (World sdk) (SdkError sdk) A) :
  (forall w, (f w).2 = w) -> preserves unchanged (call ev f).
Proof.
  intros Hf s. unfold call, unchanged, final. specialize (Hf (world s)).
  destruct (f (world s)) as [[?|?] w]; simpl in *; subst w; by destruct s.
Qed.

Lemma keeps_frames_single eng q :
  preserves same_frames (generate_single_response eng q).
Proof.
  apply (preserves_single same_frames); intros; apply keeps_frames_call.
Qed.

Lemma keeps_frames_dataset eng r :
  preserves same_frames (generate_ragas_dataset eng r).
Proof.
  apply (preserves_dataset same_frames); intros; apply keeps_frames_call.
Qed.

Lemma keeps_state_single eng q :
  read_only eng -> preserves unchanged (generate_single_response eng q).
Proof.
  intros [Hq Hc]. apply (preserves_single unchanged); intros; by apply keeps_state_call.
Qed.

Lemma keeps_state_dataset eng r :
  read_only eng -> preserves unchanged (generate_ragas_dataset eng r).
Proof.
  intros [Hq Hc]. apply (preserves_dataset unchanged); intros; by apply keeps_state_call.
Qed.

End Frames.

(** ** What the two functions return *)

Section Dataset.

Context {sdk : Sdk}.

Implicit Types (s : State sdk) (t : list (Call sdk)) (e : Exn sdk).
Implicit Types (eng : QueryEngine sdk) (docs : Documents sdk) (q : pyval) (r : nat).

Lemma run_call {A} ev (f : ext (World sdk) (SdkError sdk) A) s :
  call ev f s =
  match f (world s) with
  | (inl x, w) => (inl (External x), set_world w s, [(ev, Some (External x))])
  | (inr a, w) => (inr a, set_world w s, [(ev, None)])
  end.
Proof. reflexivity. Qed.

Lemma run_getitem r c s df :
  frames s !! r = Some df ->
  getitem r c s = (df_getitem sdk df c, s, []).
Proof.
  intros H. unfold getitem. rewrite run_bind. unfold read_frame. rewrite H.
  by destruct (df_getitem sdk df c).
Qed.

Lemma index_of_positions c (cols : list string) :
  index_of c cols = hd_error (positions c cols).
Proof.
  induction cols as [|c' cols IH]; [done|]. simpl.
  destruct (String.eqb c c'); [done|]. simpl. rewrite IH.
  by destruct (positions c cols).
Qed.

(** [df[c]] raises exactly when no column is labelled [c], and then it is
    [KeyError c]. *)
Lemma df_getitem_inl df c x :
  df_getitem sdk df c = inl x ->
  x = KeyError c /\ index_of c (df_columns df) = None.
Proof.
  unfold df_getitem. rewrite index_of_positions.
  destruct (positions c (df_columns df)) as [|j [|j' js]]; [|discriminate..].
  by intros [= <-].
Qed.

Lemma df_getitem_inr df c (col : list pyval) :
  df_getitem sdk df c = inr col ->
  is_Some (index_of c (df_columns df)) /\ length col = length (df_rows df).
Proof.
  unfold df_getitem. rewrite index_of_positions.
  destruct (positions c (df_columns df)) as [|j [|j' js]]; [discriminate|..];
    intros [= <-]; (split; [by eexists|by rewrite length_fmap]).
Qed.

Lemma df_getitem_length df c (col : list pyval) :
  df_getitem sdk df c = inr col -> length col = length (df_rows df).
Proof. intros H. by apply df_getitem_inr in H as [_ ?]. Qed.

Lemma single_response_returns eng q s d s' t :
  generate_single_response eng q s = (inr d, s', t) ->
  exists rsp w' cs t',
    query sdk eng q (world s) = (inr rsp, w') /\
    mapM node_content (source_nodes rsp) (set_world w' s) = (inr cs, s', t') /\
    d = response_dict rsp cs /\ t = (EQuery eng q, None) :: t'.
Proof.
  unfold generate_single_response. intros H.
  apply run_bind_returns in H as (rsp & s1 & t1 & t2 & Hq & H & ->).
  apply run_bind_returns in H as (cs & s2 & t3 & t4 & Hc & H & ->).
  rewrite run_mret in H. injection H as <- <- <-.
  rewrite run_call in Hq. destruct (query sdk eng q (world s)) as [[x|rsp'] w'] eqn:E;
    [discriminate|]. injection Hq as <- <- <-.
  exists rsp', w', cs, t3. by rewrite app_nil_r.
Qed.

Lemma single_response_total eng q s :
  never_raises eng -> exists d s' t, generate_single_response eng q s = (inr d, s', t).
Proof.
  intros [Hq Hc]. destruct (Hq q (world s)) as (rsp & w' & E).
  destruct (mapM_total node_content (source_nodes rsp) (set_world w' s))
    as (cs & s' & t' & Hcs).
  { intros c s0. destruct (Hc (node c) (world s0)) as (x & w1 & E1).
    exists x, (set_world w1 s0), [(EGetContent (node c), None)].
    unfold node_content. by rewrite run_call, E1. }
  exists (response_dict rsp cs), s', ((EQuery eng q, None) :: t').
  unfold generate_single_response.
  rewrite run_bind, run_call, E, run_bind, Hcs, run_mret.
  by rewrite app_nil_r.
Qed.

Lemma single_response_shape eng (qs : list pyval) s rs s' t :
  mapM (generate_single_response eng) qs s = (inr rs, s', t) ->
  Forall (fun d => dict_getitem sdk d "answer" = inr (answer_of d) /\
                   dict_getitem sdk d "contexts" = inr (contexts_of d)) rs.
Proof.
  intros H.
  apply (mapM_Forall2 _ (fun _ d => dict_getitem sdk d "answer" = inr (answer_of d) /\
                   dict_getitem sdk d "contexts" = inr (contexts_of d))) in H.
  - clear -H. induction H; constructor; auto.
  - intros q s0 d s1 t1 Hd.
    apply single_response_returns in Hd as (rsp & w' & cs & t' & _ & _ & -> & _).
    done.
Qed.

Lemma run_local {A} ev (x : Exn sdk + A) s :
  local ev x s = (x, s, [(ev, raised x)]).
Proof. by destruct x. Qed.

(** The run of [generate_ragas_dataset] on a frame with a question column:
    the questions are asked first, the ground_truth column is read after,
    and the dict of the four columns is handed to the datasets library. *)
Lemma ragas_dataset_run eng r s df qs :
  frames s !! r = Some df ->
  df_getitem sdk df "question" = inr qs ->
  generate_ragas_dataset eng r s =
  match mapM (generate_single_response eng) qs s with
  | (inl e, s', t) => (inl e, s', t)
  | (inr rs, s', t) =>
      match df_getitem sdk df "ground_truth" with
      | inl e => (inl e, s', t)
      | inr gts =>
          let d := four_columns qs (answer_of <$> rs) (contexts_of <$> rs) gts in
          (pack sdk d, s', t ++ [(EFromDict d, raised (pack sdk d))])
      end
  end.
Proof.
  intros Hdf Hqs. unfold generate_ragas_dataset.
  rewrite run_bind, (run_getitem _ _ _ _ Hdf), Hqs, run_bind.
  destruct (mapM (generate_single_response eng) qs s) as [[[e|rs] s1] t1] eqn:Hrs;
    [by rewrite app_nil_l|].
  pose proof (single_response_shape _ _ _ _ _ _ Hrs) as Hshape.
  rewrite run_bind, (mapM_lift _ answer_of).
  2:{ eapply Forall_impl; [exact Hshape|]. by intros d [? _]. }
  rewrite run_bind, (mapM_lift _ contexts_of).
  2:{ eapply Forall_impl; [exact Hshape|]. by intros d [_ ?]. }
  assert (frames s1 !! r = Some df) as Hdf1.
  { pose proof (preserves_mapM same_frames (generate_single_response eng) qs
                  (keeps_frames_single eng) s) as Hk.
    rewrite Hrs in Hk. unfold same_frames, final in Hk. simpl in Hk. by rewrite Hk. }
  rewrite run_bind, (run_getitem _ _ _ _ Hdf1).
  destruct (df_getitem sdk df "ground_truth") as [e|gts] eqn:Hgts.
  { simpl. by rewrite !app_nil_r. }
  rewrite run_bind. unfold from_dict. rewrite run_local.
  fold (four_columns qs (answer_of <$> rs) (contexts_of <$> rs) gts).
  destruct (pack sdk (four_columns qs (answer_of <$> rs) (contexts_of <$> rs) gts));
    [done|].
  rewrite run_mret. simpl. done.
Qed.

(** The library keeps the length of a column, and what it raises is its
    own. *)
Lemma stored_length (col col' : list pyval) :
  stored sdk col = inr col' -> length col' = length col.
Proof.
  unfold stored. destruct col as [|v col]; [by intros [= <-]|].
  destruct (arrow_column sdk (v :: col)) as [e|f]; [discriminate|].
  intros [= <-]. exact (length_fmap f (v :: col)).
Qed.

Lemma stored_raises (col : list pyval) x :
  stored sdk col = inl x -> exists err, x = External err.
Proof.
  unfold stored. destruct col as [|v col]; [discriminate|].
  destruct (arrow_column sdk (v :: col)) as [e|f]; [|discriminate].
  intros [= <-]. by exists e.
Qed.

(** What the library makes of the four columns when they have one length:
    a dataset of the four columns as it stores them, or its exception. *)
Lemma pack_four (qs ans cs gts : list pyval) :
  length ans = length qs -> length cs = length qs -> length gts = length qs ->
  match pack sdk (four_columns qs ans cs gts) with
  | inl x => exists err, x = External err
  | inr ds =>
      exists qs' ans' cs' gts',
        stored sdk qs = inr qs' /\ stored sdk ans = inr ans' /\
        stored sdk cs = inr cs' /\ stored sdk gts = inr gts' /\
        ds = {| ds_data := four_columns qs' ans' cs' gts' |}
  end.
Proof.
  intros La Lc Lg. unfold pack, four_columns. cbn [stored_columns].
  destruct (stored sdk qs) as [x|qs'] eqn:Hq; [by eapply stored_raises|].
  destruct (stored sdk ans) as [x|ans'] eqn:Ha; [by eapply stored_raises|].
  destruct (stored sdk cs) as [x|cs'] eqn:Hc; [by eapply stored_raises|].
  destruct (stored sdk gts) as [x|gts'] eqn:Hg; [by eapply stored_raises|].
  apply stored_length in Hq as Lq', Ha as La', Hc as Lc', Hg as Lg'.
  assert (same_length [("question", qs'); ("answer", ans'); ("contexts", cs');
                       ("ground_truth", gts')] = true) as ->.
  { simpl. rewrite La', Lc', Lg', Lq', La, Lc, Lg, Nat.eqb_refl. done. }
  by exists qs', ans', cs', gts'.
Qed.

Lemma getitem_returns r c s col s' t :
  getitem r c s = (inr col, s', t) ->
  exists df, frames s !! r = Some df /\ df_getitem sdk df c = inr col.
Proof.
  unfold getitem. rewrite run_bind. unfold read_frame.
  destruct (frames s !! r) as [df|]; [|discriminate].
  destruct (df_getitem sdk df c) as [x|col'] eqn:E; [discriminate|].
  intros [= <- <- <-]. by exists df.
Qed.

(** Whenever [generate_ragas_dataset] returns, it has asked every question
    of the frame, and its last call handed the four columns to the
    library, which made the dataset of them. *)
Lemma ragas_dataset_returns_inv eng r s ds s' t :
  generate_ragas_dataset eng r s = (inr ds, s', t) ->
  exists df qs gts rs t1,
    frames s !! r = Some df /\
    df_getitem sdk df "question" = inr qs /\
    df_getitem sdk df "ground_truth" = inr gts /\
    mapM (generate_single_response eng) qs s = (inr rs, s', t1) /\
    pack sdk (four_columns qs (answer_of <$> rs) (contexts_of <$> rs) gts) = inr ds /\
    t = t1 ++ [(EFromDict (four_columns qs (answer_of <$> rs) (contexts_of <$> rs) gts),
                None)].
Proof.
  intros H. pose proof H as H0. unfold generate_ragas_dataset in H0.
  apply run_bind_returns in H0 as (qs & s1 & t1 & t2 & Hq & _ & _).
  apply getitem_returns in Hq as (df & Hdf & Hqs).
  rewrite (ragas_dataset_run _ _ _ _ _ Hdf Hqs) in H.
  destruct (mapM (generate_single_response eng) qs s) as [[[e|rs] s2] t3] eqn:Hrs;
    [discriminate|].
  destruct (df_getitem sdk df "ground_truth") as [e|gts] eqn:Hgts; [discriminate|].
  cbn zeta in H.
  destruct (pack sdk (four_columns qs (answer_of <$> rs) (contexts_of <$> rs) gts))
    as [x|ds'] eqn:Hp; [discriminate|].
  injection H as <- <- <-. by exists df, qs, gts, rs, t3.
Qed.

(** The four columns always have one length. *)
Lemma responses_lengths eng (qs gts : list pyval) df s rs s' t :
  df_getitem sdk df "question" = inr qs ->
  df_getitem sdk df "ground_truth" = inr gts ->
  mapM (generate_single_response eng) qs s = (inr rs, s', t) ->
  length (answer_of <$> rs) = length qs /\ length (contexts_of <$> rs) = length qs /\
  length gts = length qs.
Proof.
  intros Hqs Hgts Hrs. apply mapM_returns_length in Hrs.
  apply df_getitem_length in Hqs, Hgts. rewrite !length_fmap. split_and!; congruence.
Qed.

Lemma Forall2_witness {A B} (R : A -> B -> Prop) (l : list A) (k : list B) :
  Forall2 R l k -> Forall (fun y => exists x, x ∈ l /\ R x y) k.
Proof.
  induction 1 as [|x y l k HR _ IH]; constructor.
  - exists x. split; [left|done].
  - eapply Forall_impl; [exact IH|]. intros y' (x' & Hin & HR').
    exists x'. split; [by right|done].
Qed.

Lemma node_content_returns (c : NodeWithScore (Node sdk)) s x s' t :
  node_content c s = (inr x, s', t) ->
  get_content sdk (node c) (world s) = (inr x, world s') /\ s' = set_world (world s') s.
Proof.
  unfold node_content. rewrite run_call.
  destruct (get_content sdk (node c) (world s)) as [[?|y] w]; [discriminate|].
  by intros [= <- <- <-].
Qed.


End Dataset.

(** ** The outcome and the calls of a sequence *)

Section Sequence.

Context {sdk : Sdk}.

Implicit Types (s : State sdk) (t : list (Call sdk)) (e : Exn sdk).

Lemma outcome_bind {A B} (m : M sdk A) (f : A -> M sdk B) s :
  outcome ((m ≫= f) s) =
  match outcome (m s) with
  | inl e => inl e
  | inr a => outcome (f a (final (m s)))
  end.
Proof.
  rewrite run_bind. destruct (m s) as [[[e|a] s1] t1]; [done|].
  unfold final, outcome. cbn [fst snd]. by destruct (f a s1) as [[y s2] t2].
Qed.

Lemma trace_bind {A B} (m : M sdk A) (f : A -> M sdk B) s :
  trace ((m ≫= f) s) =
  trace (m s) ++
  match outcome (m s) with
  | inl e => []
  | inr a => trace (f a (final (m s)))
  end.
Proof.
  rewrite run_bind. destruct (m s) as [[[e|a] s1] t1].
  - unfold trace, outcome. cbn [fst snd]. by rewrite app_nil_r.
  - unfold final, trace, outcome. cbn [fst snd]. by destruct (f a s1) as [[y s2] t2].
Qed.

Lemma trace_mret {A} (a : A) s : trace ((mret a : M sdk A) s) = [].
Proof. reflexivity. Qed.

Lemma events_app t1 t2 : events (t1 ++ t2) = events t1 ++ events t2.
Proof. apply fmap_app. Qed.

Lemma events_call {A} ev (f : ext (World sdk) (SdkError sdk) A) s :
  events (trace (call ev f s)) = [ev].
Proof. rewrite run_call. by destruct (f (world s)) as [[x|a] w]. Qed.

End Sequence.

(** ** Exceptions are never handled *)

Section Failures.

Context {sdk : Sdk}.

Implicit Types (s : State sdk) (t : list (Call sdk)) (e : Exn sdk).
Implicit Types (eng : QueryEngine sdk) (docs : Documents sdk) (q : pyval) (r : nat).

Lemma propagates_ret {A} (a : A) : propagates (mret a : M sdk A).
Proof. intros s ev e H. by apply elem_of_nil in H. Qed.

Lemma propagates_lift {A} (r : Exn sdk + A) : propagates (lift r).
Proof. intros s ev e H. destruct r; by apply elem_of_nil in H. Qed.

Lemma propagates_read r : propagates (read_frame (sdk:=sdk) r).
Proof.
  intros s ev e H. unfold read_frame in H.
  destruct (frames s !! r); by apply elem_of_nil in H.
Qed.

Lemma propagates_new df : propagates (new_frame (sdk:=sdk) df).
Proof. intros s ev e H. by apply elem_of_nil in H. Qed.

Lemma propagates_call {A} ev0 (f : ext (World sdk) (SdkError sdk) A) :
  propagates (call ev0 f).
Proof.
  intros s ev e. rewrite run_call.
  destruct (f (world s)) as [[x|a] w]; unfold trace, outcome; simpl;
    intros H; apply list_elem_of_singleton in H; by simplify_eq.
Qed.

Lemma propagates_local {A} ev0 (r : Exn sdk + A) : propagates (local ev0 r).
Proof.
  intros s ev e. unfold local.
  destruct r as [x|a]; unfold trace, outcome; simpl;
    intros H; apply list_elem_of_singleton in H; by simplify_eq.
Qed.

Lemma propagates_bind {A B} (m : M sdk A) (f : A -> M sdk B) :
  propagates m -> (forall a, propagates (f a)) -> propagates (m ≫= f).
Proof.
  intros Hm Hf s ev e. rewrite run_bind. specialize (Hm s ev e).
  destruct (m s) as [[[x|a] s1] t1].
  { unfold trace, outcome in *. simpl in *. intros H.
    destruct (Hm H) as [[= ->] ?]. done. }
  specialize (Hf a s1 ev e). destruct (f a s1) as [[r s2] t2].
  unfold trace, outcome in *. simpl in *.
  intros [H|H]%elem_of_app.
  - by destruct (Hm H).
  - destruct (Hf H) as [-> Hlast]. split; [done|].
    by rewrite last_app, Hlast.
Qed.

Lemma propagates_mapM {A B} (f : A -> M sdk B) l :
  (forall x, propagates (f x)) -> propagates (mapM f l).
Proof.
  intros Hf. induction l as [|x l IH]; [apply propagates_ret|].
  rewrite mapM_cons. apply propagates_bind; [done|]. intros y.
  apply propagates_bind; [done|]. intros k. apply propagates_ret.
Qed.

Lemma propagates_getitem r c : propagates (getitem (sdk:=sdk) r c).
Proof.
  apply propagates_bind; [apply propagates_read|]. intros. apply propagates_lift.
Qed.

Lemma propagates_single eng q : propagates (generate_single_response (sdk:=sdk) eng q).
Proof.
  apply propagates_bind; [apply propagates_call|]. intros rsp.
  apply propagates_bind.
  - apply propagates_mapM. intros c. apply propagates_call.
  - intros cs. apply propagates_ret.
Qed.

Lemma propagates_dataset eng r : propagates (generate_ragas_dataset (sdk:=sdk) eng r).
Proof.
  apply propagates_bind; [apply propagates_getitem|]. intros qs.
  apply propagates_bind.
  { apply propagates_mapM. intros q. apply propagates_single. }
  intros rs. apply propagates_bind.
  { apply propagates_mapM. intros d. apply propagates_lift. }
  intros answers. apply propagates_bind.
  { apply propagates_mapM. intros d. apply propagates_lift. }
  intros contexts. apply propagates_bind; [apply propagates_getitem|].
  intros gts. apply propagates_bind; [apply propagates_local|].
  intros ds. apply propagates_ret.
Qed.

Lemma propagates_build docs : propagates (build_query_engine (sdk:=sdk) docs).
Proof.
  repeat (apply propagates_bind; [apply propagates_call|]; intros ?).
  apply propagates_ret.
Qed.

Lemma propagates_notebook : propagates (notebook (sdk:=sdk)).
Proof.
  unfold notebook, cell_clone, cell_environ, cell_testset, cell_nest_asyncio.
  apply propagates_bind; [apply propagates_call|]; intros _.
  apply propagates_bind; [apply propagates_call|]; intros _.
  apply propagates_bind.
  { repeat (apply propagates_bind; [apply propagates_call|]; intros ?).
    apply propagates_bind; [apply propagates_new|]; intros test_df.
    apply propagates_bind; [|intros; apply propagates_ret].
    apply propagates_bind; [apply propagates_read|]. intros. apply propagates_new. }
  intros [documents test_df].
  apply propagates_bind; [apply propagates_call|]; intros _.
  apply propagates_bind; [apply propagates_build|]; intros eng.
  apply propagates_bind; [apply propagates_single|]; intros _.
  apply propagates_bind; [apply propagates_dataset|]; intros ds.
  apply propagates_bind.
  { apply propagates_bind; [apply propagates_local|]. intros. apply propagates_new. }
  intros ragas_df.
  apply propagates_bind; [apply propagates_call|]; intros client.
  apply propagates_bind; [apply propagates_call|]; intros project.
  apply propagates_bind.
  { apply propagates_bind; [apply propagates_read|]. intros. apply propagates_call. }
  intros _.
  apply propagates_bind; [apply propagates_call|]; intros _.
  apply propagates_bind; [apply propagates_call|]; intros _.
  apply propagates_call.
Qed.

(** C3.  No step handles an exception.  A query that raises makes
    [generate_single_response] raise the same exception at once; the first
    question whose response raises makes [generate_ragas_dataset] raise
    that exception, after the questions before it; and in the two
    functions and in the notebook as a whole, an exception raised by any
    call is the exception the operation ends with, that call being its
    last. *)
Theorem failures_propagate (eng : QueryEngine sdk) :
  (forall q s x w',
     query sdk eng q (world s) = (inl x, w') ->
     generate_single_response eng q s =
       (inl (External x), set_world w' s, [(EQuery eng q, Some (External x))])) /\
  (forall r s df qs i q zs si ti e s' t',
     frames s !! r = Some df ->
     df_getitem sdk df "question" = inr qs ->
     qs !! i = Some q ->
     mapM (generate_single_response eng) (take i qs) s = (inr zs, si, ti) ->
     generate_single_response eng q si = (inl e, s', t') ->
     generate_ragas_dataset eng r s = (inl e, s', ti ++ t')) /\
  (forall q, propagates (generate_single_response eng q)) /\
  (forall r, propagates (generate_ragas_dataset eng r)) /\
  propagates (notebook (sdk:=sdk)).
Proof.
  split_and!.
  - intros q s x w' Hq. unfold generate_single_response.
    by rewrite run_bind, run_call, Hq.
  - intros r s df qs i q zs si ti e s' t' Hdf Hqs Hi Hz Hq.
    unfold generate_ragas_dataset.
    rewrite run_bind, (run_getitem _ _ _ _ Hdf), Hqs, run_bind.
    by rewrite (mapM_raises_at _ _ _ _ _ _ _ _ _ _ _ Hz Hi Hq).
  - apply propagates_single.
  - apply propagates_dataset.
  - apply propagates_notebook.
Qed.

End Failures.

(** ** Arguments are left as they were *)

Section FrameClaims.

Context {sdk : Sdk}.

(** C6.  [generate_single_response] and [generate_ragas_dataset] leave the
    frames, the test frame among them, exactly as they were, whether they
    return or raise; the only changes to the world are those the engine's
    own calls make, so with an engine whose calls change nothing the whole
    state is unchanged. *)
Theorem arguments_unchanged (eng : QueryEngine sdk) :
  (forall q s, frames (final (generate_single_response eng q s)) = frames s) /\
  (forall r s, frames (final (generate_ragas_dataset eng r s)) = frames s) /\
  (read_only eng ->
   (forall q s, final (generate_single_response eng q s) = s) /\
   (forall r s, final (generate_ragas_dataset eng r s) = s)).
Proof.
  split_and!.
  - intros q. apply keeps_frames_single.
  - intros r. apply keeps_frames_dataset.
  - intros Hro. split.
    + intros q. by apply keeps_state_single.
    + intros r. by apply keeps_state_dataset.
Qed.

End FrameClaims.

(** ** Two runs *)

Section Determinism.

Context {sdk : Sdk}.

Implicit Types (s : State sdk) (t : list (Call sdk)) (e : Exn sdk).
Implicit Types (eng : QueryEngine sdk) (docs : Documents sdk) (q : pyval) (r : nat).

Lemma deterministic_ret {A} r (a : A) : deterministic r (mret a : M sdk A).
Proof. by intros s1 s2 H. Qed.

Lemma deterministic_lift {A} r (x : Exn sdk + A) : deterministic r (lift x).
Proof. intros s1 s2 H. by destruct x. Qed.

Lemma deterministic_local {A} r ev (x : Exn sdk + A) : deterministic r (local ev x).
Proof. intros s1 s2 H. by destruct x. Qed.

Lemma deterministic_read r : deterministic r (read_frame (sdk:=sdk) r).
Proof.
  intros s1 s2 H. unfold read_frame. pose proof H as H'. red in H'. rewrite H'.
  by destruct (frames s2 !! r).
Qed.

Lemma deterministic_call {A} r ev (f : ext (World sdk) (SdkError sdk) A) :
  (forall w1 w2, (f w1).1 = (f w2).1) -> deterministic r (call ev f).
Proof.
  intros Hf s1 s2 H. rewrite !run_call. specialize (Hf (world s1) (world s2)).
  destruct (f (world s1)) as [[x1|a1] w1], (f (world s2)) as [[x2|a2] w2];
    simpl in Hf; by simplify_eq.
Qed.

Lemma deterministic_bind {A B} r (m : M sdk A) (f : A -> M sdk B) :
  deterministic r m -> (forall a, deterministic r (f a)) -> deterministic r (m ≫= f).
Proof.
  intros Hm Hf s1 s2 H. rewrite !run_bind. specialize (Hm s1 s2 H).
  destruct (m s1) as [[[x1|a1] u1] t1], (m s2) as [[[x2|a2] u2] t2];
    unfold outcome, trace, final in *; simpl in *;
    destruct Hm as (Ho & -> & Hs); try discriminate.
  - by simplify_eq.
  - injection Ho as ->. specialize (Hf a2 u1 u2 Hs).
    destruct (f a2 u1) as [[r1 v1] t3], (f a2 u2) as [[r2 v2] t4]. simpl in *.
    destruct Hf as (Ho & Ht & ?). by simplify_eq.
Qed.

Lemma deterministic_mapM {A B} r (f : A -> M sdk B) l :
  (forall x, deterministic r (f x)) -> deterministic r (mapM f l).
Proof.
  intros Hf. induction l as [|x l IH]; [apply deterministic_ret|].
  rewrite mapM_cons. apply deterministic_bind; [done|]. intros y.
  apply deterministic_bind; [done|]. intros k. apply deterministic_ret.
Qed.

Lemma deterministic_single r eng q :
  fixed_responses eng -> deterministic r (generate_single_response eng q).
Proof.
  intros [Hq Hc]. apply deterministic_bind; [by apply deterministic_call|].
  intros rsp. apply deterministic_bind.
  - apply deterministic_mapM. intros c. by apply deterministic_call.
  - intros cs. apply deterministic_ret.
Qed.

Lemma deterministic_dataset r eng :
  fixed_responses eng -> deterministic r (generate_ragas_dataset eng r).
Proof.
  intros Hfix.
  apply deterministic_bind.
  { apply deterministic_bind; [apply deterministic_read|]. intros. apply deterministic_lift. }
  intros qs. apply deterministic_bind.
  { apply deterministic_mapM. intros q. by apply deterministic_single. }
  intros rs. apply deterministic_bind.
  { apply deterministic_mapM. intros d. apply deterministic_lift. }
  intros answers. apply deterministic_bind.
  { apply deterministic_mapM. intros d. apply deterministic_lift. }
  intros contexts. apply deterministic_bind.
  { apply deterministic_bind; [apply deterministic_read|]. intros. apply deterministic_lift. }
  intros gts. apply deterministic_bind; [apply deterministic_local|].
  intros ds. apply deterministic_ret.
Qed.

(** C7, as the code has it.  The script's own logic is deterministic given
    the external responses: when what the engine returns does not depend on
    the world, two runs of [generate_single_response] on one question, and
    two runs of [generate_ragas_dataset] on one frame, end with the same
    result or the same exception and make the same calls, whatever the two
    worlds are. *)
Theorem fixed_responses_deterministic (eng : QueryEngine sdk) (r : nat) s1 s2 :
  fixed_responses eng ->
  same_frame r s1 s2 ->
  (forall q,
     outcome (generate_single_response eng q s1) = outcome (generate_single_response eng q s2) /\
     trace (generate_single_response eng q s1) = trace (generate_single_response eng q s2)) /\
  outcome (generate_ragas_dataset eng r s1) = outcome (generate_ragas_dataset eng r s2) /\
  trace (generate_ragas_dataset eng r s1) = trace (generate_ragas_dataset eng r s2).
Proof.
  intros Hfix Hs. split.
  - intros q. destruct (deterministic_single r eng q Hfix s1 s2 Hs) as (? & ? & _). done.
  - destruct (deterministic_dataset r eng Hfix s1 s2 Hs) as (? & ? & _). done.
Qed.

End Determinism.

(** ** The order of the steps *)

Section Order.

Context {sdk : Sdk}.

Implicit Types (s : State sdk) (t : list (Call sdk)) (e : Exn sdk).
Implicit Types (eng : QueryEngine sdk) (docs : Documents sdk) (q : pyval) (r : nat).
Implicit Types (ev : Event sdk) (evs : list (Event sdk)).

Lemma in_order_nil lo hi : in_order (sdk:=sdk) lo hi [].
Proof. split; constructor. Qed.

Lemma in_order_app lo mid hi evs1 evs2 :
  (lo <= mid <= hi)%nat ->
  in_order lo mid evs1 -> in_order mid hi evs2 -> in_order lo hi (evs1 ++ evs2).
Proof.
  intros Hb [S1 F1] [S2 F2]. split.
  - apply StronglySorted_app_2; [|done..].
    intros x1 x2 H1 H2. rewrite Forall_forall in F1, F2.
    specialize (F1 _ H1). specialize (F2 _ H2). unfold not_after. lia.
  - apply Forall_app. split.
    + eapply Forall_impl; [exact F1|]. intros ev ?. simpl in *. lia.
    + eapply Forall_impl; [exact F2|]. intros ev ?. simpl in *. lia.
Qed.

Lemma in_order_weaken lo hi lo' hi' evs :
  (lo' <= lo)%nat -> (hi <= hi')%nat -> in_order lo hi evs -> in_order lo' hi' evs.
Proof.
  intros ? ? [S1 F1]. split; [done|].
  eapply Forall_impl; [exact F1|]. intros ev ?. simpl in *. lia.
Qed.

Lemma staged_weaken {A} lo hi lo' hi' (m : M sdk A) :
  (lo' <= lo)%nat -> (hi <= hi')%nat -> staged lo hi m -> staged lo' hi' m.
Proof. intros ? ? H s. by eapply in_order_weaken. Qed.

Lemma staged_ret {A} lo hi (a : A) : staged lo hi (mret a : M sdk A).
Proof. intros s. apply in_order_nil. Qed.

Lemma staged_lift {A} lo hi (r : Exn sdk + A) : staged lo hi (lift r).
Proof. intros s. destruct r; apply in_order_nil. Qed.

Lemma staged_read lo hi r : staged lo hi (read_frame (sdk:=sdk) r).
Proof. intros s. unfold read_frame. destruct (frames s !! r); apply in_order_nil. Qed.

Lemma staged_new lo hi df : staged lo hi (new_frame (sdk:=sdk) df).
Proof. intros s. apply in_order_nil. Qed.

Lemma in_order_singleton k ev :
  stage_index (stage ev) = k -> in_order k k [ev].
Proof.
  intros <-. split.
  - repeat constructor.
  - repeat constructor; lia.
Qed.

Lemma staged_call {A} k ev (f : ext (World sdk) (SdkError sdk) A) :
  stage_index (stage ev) = k -> staged k k (call ev f).
Proof.
  intros Hk s. rewrite run_call.
  destruct (f (world s)) as [[x|a] w]; by apply in_order_singleton.
Qed.

Lemma staged_local {A} k ev (r : Exn sdk + A) :
  stage_index (stage ev) = k -> staged k k (local ev r).
Proof. intros Hk s. destruct r; by apply in_order_singleton. Qed.

Lemma staged_bind {A B} lo mid hi (m : M sdk A) (f : A -> M sdk B) :
  (lo <= mid <= hi)%nat ->
  staged lo mid m -> (forall a, staged mid hi (f a)) -> staged lo hi (m ≫= f).
Proof.
  intros Hb Hm Hf s. rewrite run_bind. specialize (Hm s).
  destruct (m s) as [[[x|a] s1] t1].
  - eapply in_order_weaken; [| |exact Hm]; lia.
  - specialize (Hf a s1). destruct (f a s1) as [[r s2] t2].
    unfold trace, events in *. simpl in *. rewrite fmap_app.
    by eapply in_order_app.
Qed.

Lemma staged_mapM {A B} k (f : A -> M sdk B) l :
  (forall x, staged k k (f x)) -> staged k k (mapM f l).
Proof.
  intros Hf. induction l as [|x l IH]; [apply staged_ret|].
  rewrite mapM_cons. apply (staged_bind k k k); [lia|done|]. intros y.
  apply (staged_bind k k k); [lia|done|]. intros ys. apply staged_ret.
Qed.

Lemma staged_single eng q : staged 4 4 (generate_single_response (sdk:=sdk) eng q).
Proof.
  apply (staged_bind 4 4 4); [lia|by apply staged_call|]. intros rsp.
  apply (staged_bind 4 4 4); [lia| |intros; apply staged_ret].
  apply staged_mapM. intros c. by apply staged_call.
Qed.

Lemma staged_dataset eng r : staged 4 5 (generate_ragas_dataset (sdk:=sdk) eng r).
Proof.
  apply (staged_bind 4 4 5); [lia| |].
  { apply (staged_bind 4 4 4); [lia|apply staged_read|]. intros. apply staged_lift. }
  intros qs. apply (staged_bind 4 4 5); [lia| |].
  { apply staged_mapM. intros q. apply staged_single. }
  intros rs. apply (staged_bind 4 4 5); [lia| |].
  { apply staged_mapM. intros d. apply staged_lift. }
  intros answers. apply (staged_bind 4 4 5); [lia| |].
  { apply staged_mapM. intros d. apply staged_lift. }
  intros contexts. apply (staged_bind 4 5 5); [lia| |].
  { apply (staged_bind 4 4 5); [lia|apply staged_read|]. intros. apply staged_lift. }
  intros gts. apply (staged_bind 5 5 5); [lia|by apply staged_local|].
  intros ds. apply staged_ret.
Qed.

Lemma staged_build docs : staged 3 3 (build_query_engine (sdk:=sdk) docs).
Proof.
  repeat (apply (staged_bind 3 3 3); [lia|by apply staged_call|]; intros ?).
  apply staged_ret.
Qed.

Lemma staged_notebook : staged 0 6 (notebook (sdk:=sdk)).
Proof.
  unfold notebook.
  apply (staged_bind 0 0 6); [lia|by apply staged_call|]; intros _.
  apply (staged_bind 0 0 6); [lia|by apply staged_call|]; intros _.
  apply (staged_bind 0 2 6); [lia| |].
  { unfold cell_testset.
    apply (staged_bind 0 1 2); [lia| |].
    { apply (staged_weaken 1 1); [lia..|]. by apply staged_call. }
    intros rd. apply (staged_bind 1 1 2); [lia|by apply staged_call|].
    intros docs. apply (staged_bind 1 2 2); [lia| |].
    { apply (staged_weaken 2 2); [lia..|]. by apply staged_call. }
    intros gen. apply (staged_bind 2 2 2); [lia|by apply staged_call|].
    intros ts. apply (staged_bind 2 2 2); [lia|by apply staged_call|].
    intros df. apply (staged_bind 2 2 2); [lia|apply staged_new|].
    intros test_df. apply (staged_bind 2 2 2); [lia| |intros; apply staged_ret].
    apply (staged_bind 2 2 2); [lia|apply staged_read|]. intros. apply staged_new. }
  intros [documents test_df].
  apply (staged_bind 2 3 6); [lia| |].
  { apply (staged_weaken 3 3); [lia..|]. by apply staged_call. }
  intros _. apply (staged_bind 3 3 6); [lia|apply staged_build|].
  intros eng. apply (staged_bind 3 4 6); [lia| |].
  { apply (staged_weaken 4 4); [lia..|]. apply staged_single. }
  intros _. apply (staged_bind 4 5 6); [lia|apply staged_dataset|].
  intros ds. apply (staged_bind 5 5 6); [lia| |].
  { apply (staged_bind 5 5 5); [lia|by apply staged_local|]. intros. apply staged_new. }
  intros ragas_df. apply (staged_bind 5 6 6); [lia| |].
  { apply (staged_weaken 6 6); [lia..|]. by apply staged_call. }
  intros client. apply (staged_bind 6 6 6); [lia|by apply staged_call|].
  intros project. apply (staged_bind 6 6 6); [lia| |].
  { apply (staged_bind 6 6 6); [lia|apply staged_read|]. intros. by apply staged_call. }
  intros _. apply (staged_bind 6 6 6); [lia|by apply staged_call|].
  intros _. apply (staged_bind 6 6 6); [lia|by apply staged_call|].
  intros _. by apply staged_call.
Qed.

End Order.

(** ** The calls the script makes *)

Section Calls.

Context {sdk : Sdk}.

Implicit Types (s : State sdk) (t : list (Call sdk)) (e : Exn sdk).
Implicit Types (eng : QueryEngine sdk) (docs : Documents sdk) (q : pyval) (r : nat).

Lemma all_events_ret {A} P (a : A) : all_events P (mret a : M sdk A).
Proof. intros s. constructor. Qed.

Lemma all_events_lift {A} P (r : Exn sdk + A) : all_events P (lift r).
Proof. intros s. destruct r; constructor. Qed.

Lemma all_events_read P r : all_events P (read_frame (sdk:=sdk) r).
Proof. intros s. unfold read_frame. destruct (frames s !! r); constructor. Qed.

Lemma all_events_new P df : all_events P (new_frame (sdk:=sdk) df).
Proof. intros s. constructor. Qed.

Lemma all_events_call {A} (P : Event sdk -> Prop) ev
      (f : ext (World sdk) (SdkError sdk) A) :
  P ev -> all_events P (call ev f).
Proof.
  intros HP s. rewrite run_call.
  destruct (f (world s)) as [[x|a] w]; by repeat constructor.
Qed.

Lemma all_events_local {A} (P : Event sdk -> Prop) ev (r : Exn sdk + A) :
  P ev -> all_events P (local ev r).
Proof. intros HP s. destruct r; by repeat constructor. Qed.

Lemma all_events_bind {A B} P (m : M sdk A) (f : A -> M sdk B) :
  all_events P m -> (forall a, all_events P (f a)) -> all_events P (m ≫= f).
Proof.
  intros Hm Hf s. rewrite run_bind. specialize (Hm s).
  destruct (m s) as [[[x|a] s1] t1]; [done|].
  specialize (Hf a s1). destruct (f a s1) as [[r s2] t2].
  unfold trace, events in *. simpl in *. rewrite fmap_app.
  by apply Forall_app.
Qed.

Lemma all_events_mapM {A B} P (f : A -> M sdk B) l :
  (forall x, all_events P (f x)) -> all_events P (mapM f l).
Proof.
  intros Hf. induction l as [|x l IH]; [apply all_events_ret|].
  rewrite mapM_cons. apply all_events_bind; [done|]. intros y.
  apply all_events_bind; [done|]. intros ys. apply all_events_ret.
Qed.

Lemma script_events_single eng q :
  all_events script_event (generate_single_response eng q).
Proof.
  apply all_events_bind; [by apply all_events_call|]. intros rsp.
  apply all_events_bind; [|intros; apply all_events_ret].
  apply all_events_mapM. intros c. by apply all_events_call.
Qed.

Lemma script_events_dataset eng r :
  all_events script_event (generate_ragas_dataset eng r).
Proof.
  apply all_events_bind.
  { apply all_events_bind; [apply all_events_read|]. intros. apply all_events_lift. }
  intros qs. apply all_events_bind.
  { apply all_events_mapM. intros q. apply script_events_single. }
  intros rs. apply all_events_bind.
  { apply all_events_mapM. intros d. apply all_events_lift. }
  intros answers. apply all_events_bind.
  { apply all_events_mapM. intros d. apply all_events_lift. }
  intros contexts. apply all_events_bind.
  { apply all_events_bind; [apply all_events_read|]. intros. apply all_events_lift. }
  intros gts. apply all_events_bind; [by apply all_events_local|].
  intros ds. apply all_events_ret.
Qed.

Lemma script_events_build docs :
  all_events script_event (build_query_engine (sdk:=sdk) docs).
Proof.
  repeat (apply all_events_bind; [by apply all_events_call|]; intros ?).
  apply all_events_ret.
Qed.

Lemma script_events_notebook : all_events script_event (notebook (sdk:=sdk)).
Proof.
  unfold notebook.
  apply all_events_bind; [by apply all_events_call|]; intros _.
  apply all_events_bind; [by apply all_events_call|]; intros _.
  apply all_events_bind.
  { unfold cell_testset.
    repeat (apply all_events_bind; [by apply all_events_call|]; intros ?).
    apply all_events_bind; [apply all_events_new|]; intros test_df.
    apply all_events_bind; [|intros; apply all_events_ret].
    apply all_events_bind; [apply all_events_read|]. intros. apply all_events_new. }
  intros [documents test_df].
  apply all_events_bind; [by apply all_events_call|]; intros _.
  apply all_events_bind; [apply script_events_build|]; intros eng.
  apply all_events_bind; [apply script_events_single|]; intros _.
  apply all_events_bind; [apply script_events_dataset|]; intros ds.
  apply all_events_bind.
  { apply all_events_bind; [by apply all_events_local|]. intros. apply all_events_new. }
  intros ragas_df.
  apply all_events_bind; [by apply all_events_call|]; intros client.
  apply all_events_bind; [by apply all_events_call|]; intros project.
  apply all_events_bind.
  { apply all_events_bind; [apply all_events_read|]. intros. by apply all_events_call. }
  intros _.
  apply all_events_bind; [by apply all_events_call|]; intros _.
  apply all_events_bind; [by apply all_events_call|]; intros _.
  by apply all_events_call.
Qed.

End Calls.

(** ** A run that reaches the end *)

Section Complete.

Context {sdk : Sdk}.

Implicit Types (s : State sdk) (t : list (Call sdk)) (e : Exn sdk).
Implicit Types (eng : QueryEngine sdk) (docs : Documents sdk) (q : pyval) (r : nat).

Lemma call_returns {A} ev (f : ext (World sdk) (SdkError sdk) A) s a s' t :
  call ev f s = (inr a, s', t) ->
  f (world s) = (inr a, world s') /\ frames s' = frames s /\ t = [(ev, None)].
Proof.
  rewrite run_call. destruct (f (world s)) as [[x|a'] w]; [discriminate|].
  by intros [= <- <- <-].
Qed.

Lemma Forall_omap_implies {A B} (f : A -> option B) (P : A -> Prop) (Q : B -> Prop)
      (l : list A) :
  (forall x y, P x -> f x = Some y -> Q y) -> Forall P l -> Forall Q (omap f l).
Proof.
  intros HPQ. induction 1 as [|x l Hx _ IH]; [constructor|].
  simpl. destruct (f x) as [y|] eqn:E; [|done]. constructor; eauto.
Qed.

Lemma omap_none {A B} (f : A -> option B) (l : list A) :
  Forall (fun x => f x = None) l -> omap f l = [].
Proof. induction 1 as [|x l Hx _ IH]; [done|]. simpl. by rewrite Hx. Qed.

Lemma node_contents_calls (l : list (NodeWithScore (Node sdk))) s cs s' t :
  mapM node_content l s = (inr cs, s', t) ->
  events t = (fun c => EGetContent (node c)) <$> l /\
  Forall (fun c : Call sdk => c.2 = None) t.
Proof.
  revert s cs t. induction l as [|c l IH]; intros s cs t.
  - intros [= <- <- <-]. split; [done|constructor].
  - intros H. apply mapM_cons_returns in H as (x & s1 & t1 & k & t2 & Hx & Hk & -> & ->).
    apply call_returns in Hx as (_ & _ & ->).
    destruct (IH _ _ _ Hk) as [Hev Hall]. split.
    + unfold events in *. by rewrite fmap_app, Hev.
    + by constructor.
Qed.

Lemma node_contents_not_asked (l : list (NodeWithScore (Node sdk))) s :
  omap asked (events (trace (mapM node_content l s))) = [].
Proof.
  apply omap_none.
  apply (all_events_mapM (fun ev => asked ev = None) node_content l).
  intros c. by apply all_events_call.
Qed.

(** Whether it returns or raises, [generate_single_response] asks its
    question once and nothing else. *)
Lemma single_response_asked eng q s :
  omap asked (events (trace (generate_single_response eng q s))) = [q].
Proof.
  unfold generate_single_response.
  rewrite trace_bind, events_app, omap_app, events_call.
  destruct (outcome (call (EQuery eng q) (query sdk eng q) s)) as [x|rsp];
    [reflexivity|].
  rewrite trace_bind, events_app, omap_app, node_contents_not_asked.
  by destruct (outcome (mapM node_content (source_nodes rsp) _)).
Qed.

Lemma responses_asked eng (qs : list pyval) s :
  omap asked (events (trace (mapM (generate_single_response eng) qs s))) `prefix_of` qs /\
  forall rs, outcome (mapM (generate_single_response eng) qs s) = inr rs ->
    omap asked (events (trace (mapM (generate_single_response eng) qs s))) = qs.
Proof.
  revert s. induction qs as [|q qs IH]; intros s.
  - split; [by exists []|done].
  - rewrite mapM_cons, trace_bind, outcome_bind, events_app, omap_app,
      single_response_asked.
    destruct (outcome (generate_single_response eng q s)) as [x|d].
    { split; [by exists qs|done]. }
    rewrite trace_bind, outcome_bind, events_app, omap_app.
    destruct (IH (final (generate_single_response eng q s))) as [Hpre Hall].
    destruct (outcome (mapM (generate_single_response eng) qs _)) as [x|rs].
    + rewrite app_nil_r. split; [by apply prefix_cons|done].
    + rewrite (Hall rs eq_refl), trace_mret.
      change (omap asked (events (sdk:=sdk) [])) with (@nil pyval).
      rewrite app_nil_r. by split.
Qed.

Lemma cell_testset_returns s docs test_df s' t :
  cell_testset sdk s = (inr (docs, test_df), s', t) ->
  exists rd gen ts df w w' wt wt',
    load_data sdk rd w = (inr docs, w') /\
    testset_to_pandas sdk ts wt = (inr df, wt') /\
    test_df = length (frames s) /\
    frames s' = frames s ++ [df; first_rows df] /\
    events t = [ESimpleDirectoryReader dir_path 2; ELoadData rd; EWithOpenai;
                EGenerate gen docs 10 (distribution); ETestsetToPandas ts].
Proof.
  unfold cell_testset. intros H.
  apply run_bind_returns in H as (rd & s1 & t1 & ? & H1 & H & ->).
  apply run_bind_returns in H as (docs' & s2 & t2 & ? & H2 & H & ->).
  apply run_bind_returns in H as (gen & s3 & t3 & ? & H3 & H & ->).
  apply run_bind_returns in H as (ts & s4 & t4 & ? & H4 & H & ->).
  apply run_bind_returns in H as (df & s5 & t5 & ? & H5 & H & ->).
  apply run_bind_returns in H as (r & s6 & t6 & ? & H6 & H & ->).
  apply run_bind_returns in H as (r' & s7 & t7 & ? & H7 & H & ->).
  rewrite run_mret in H. injection H as <- <- <- <-.
  apply call_returns in H1 as (_ & F1 & ->), H2 as (H2 & F2 & ->),
    H3 as (_ & F3 & ->), H4 as (_ & F4 & ->), H5 as (H5 & F5 & ->).
  injection H6 as <- <- <-.
  unfold head in H7. apply run_bind_returns in H7 as (df' & s8 & t8 & ? & H8 & H7 & ->).
  unfold read_frame in H8. cbn [frames] in H8.
  rewrite lookup_app_r, Nat.sub_diag in H8 by done. injection H8 as <- <- <-.
  injection H7 as <- <- <-. cbn [frames].
  exists rd, gen, ts, df, (world s1), (world s2), (world s4), (world s5).
  split_and!; [done|done|congruence| |done].
  rewrite <- app_assoc. simpl. unfold first_rows. congruence.
Qed.

Lemma build_query_engine_returns docs s eng s' t :
  build_query_engine docs s = (inr eng, s', t) ->
  exists sc em vi wv wv' w w',
    from_documents sdk docs sc em wv = (inr vi, wv') /\
    as_query_engine sdk vi 2 w = (inr eng, w') /\
    frames s' = frames s /\
    events t = [EServiceContext 512; EOpenAIEmbedding; EFromDocuments docs sc em;
                EAsQueryEngine vi 2].
Proof.
  unfold build_query_engine. intros H.
  apply run_bind_returns in H as (sc & s1 & t1 & ? & H1 & H & ->).
  apply run_bind_returns in H as (em & s2 & t2 & ? & H2 & H & ->).
  apply run_bind_returns in H as (vi & s3 & t3 & ? & H3 & H & ->).
  apply run_bind_returns in H as (eng' & s4 & t4 & ? & H4 & H & ->).
  rewrite run_mret in H. injection H as <- <- <-.
  apply call_returns in H1 as (_ & F1 & ->), H2 as (_ & F2 & ->),
    H3 as (H3 & F3 & ->), H4 as (H4 & F4 & ->).
  exists sc, em, vi, (world s2), (world s3), (world s3), (world s4).
  split_and!; [done|done|congruence|done].
Qed.

Lemma dataset_to_pandas_returns ds s r s' t :
  dataset_to_pandas ds s = (inr r, s', t) ->
  r = length (frames s) /\
  frames s' = frames s ++ [dataset_frame (pandas_columns sdk ds)] /\
  t = [(EDatasetToPandas ds, None)].
Proof. unfold dataset_to_pandas. rewrite run_bind. simpl. by intros [= <- <- <-]. Qed.

Lemma cell_add_dataframe_returns p r s u s' t :
  cell_add_dataframe sdk p r s = (inr u, s', t) ->
  exists df, frames s !! r = Some df /\ frames s' = frames s /\
    t = [(EAddDataframe p df validation_dataset_config, None)].
Proof.
  unfold cell_add_dataframe. intros H.
  apply run_bind_returns in H as (df & s1 & t1 & ? & H1 & H & ->).
  unfold read_frame in H1. destruct (frames s !! r) as [df'|]; [|discriminate].
  injection H1 as <- <- <-. apply call_returns in H as (_ & F & ->).
  by exists df'.
Qed.

Lemma stage_answers_only (evs : list (Event sdk)) :
  in_order 4 4 evs -> Forall (fun ev => stage ev = GenerateAnswers) evs.
Proof.
  intros [_ H]. eapply Forall_impl; [exact H|].
  intros ev Hev. simpl in Hev. destruct (stage ev); simpl in Hev; done || lia.
Qed.

(** Every answer with its contexts is read off a response to one of the
    questions. *)
Lemma responses_provenance eng (qs : list pyval) s rs s' t :
  mapM (generate_single_response eng) qs s = (inr rs, s', t) ->
  Forall2 (from_response eng qs) (answer_of <$> rs) (contexts_of <$> rs).
Proof.
  intros Hrs. apply Forall2_fmap, Forall_Forall2_diag.
  apply (mapM_Forall2 _ (fun q d => exists rsp w w' cs,
           query sdk eng q w = (inr rsp, w') /\ d = response_dict rsp cs /\
           Forall2 content_of (source_nodes rsp) cs)) in Hrs.
  - apply Forall2_witness in Hrs. eapply Forall_impl; [exact Hrs|].
    intros d (q & Hin & rsp & w & w' & cs & Hq & -> & Hcs).
    by exists q, w, rsp, w', cs.
  - intros q s0 d s1 t1 Hd.
    apply single_response_returns in Hd as (rsp & w' & cs & t' & Hq & Hcs & -> & _).
    exists rsp, (world s0), w', cs. split_and!; [done..|].
    eapply mapM_Forall2; [|exact Hcs].
    intros c s2 x s3 t3 Hx. apply node_content_returns in Hx as [Hx _].
    by exists (world s2), (world s3).
Qed.

(** The dict of a run on a frame with both columns, for any responses. *)
Lemma responses_dataset_of eng df (qs gts : list pyval) s rs s' t :
  df_getitem sdk df "question" = inr qs ->
  df_getitem sdk df "ground_truth" = inr gts ->
  mapM (generate_single_response eng) qs s = (inr rs, s', t) ->
  dataset_of eng df (four_columns qs (answer_of <$> rs) (contexts_of <$> rs) gts).
Proof.
  intros Hqs Hgts Hrs.
  destruct (responses_lengths _ _ _ _ _ _ _ _ Hqs Hgts Hrs) as (La & Lc & Lg).
  exists qs, gts, (answer_of <$> rs), (contexts_of <$> rs).
  split_and!; try done. by eapply responses_provenance.
Qed.

(** What a run of [generate_ragas_dataset] that returns has done. *)
Lemma ragas_dataset_complete eng r s ds s' t :
  generate_ragas_dataset eng r s = (inr ds, s', t) ->
  exists df qs d tq,
    frames s !! r = Some df /\
    df_getitem sdk df "question" = inr qs /\
    dataset_of eng df d /\
    pack sdk d = inr ds /\
    frames s' = frames s /\
    t = tq ++ [(EFromDict d, None)] /\
    Forall (fun ev => stage ev = GenerateAnswers) (events tq) /\
    omap asked (events tq) = qs.
Proof.
  intros H. pose proof (keeps_frames_dataset eng r s) as Hk.
  rewrite H in Hk. unfold same_frames, final in Hk. cbn [fst snd] in Hk.
  apply ragas_dataset_returns_inv in H
    as (df & qs & gts & rs & t1 & Hdf & Hqs & Hgts & Hrs & Hp & ->).
  exists df, qs, (four_columns qs (answer_of <$> rs) (contexts_of <$> rs) gts), t1.
  split_and!; try done.
  - by eapply responses_dataset_of.
  - pose proof (staged_mapM 4 (generate_single_response eng) qs
                  (staged_single eng) s) as Hst.
    rewrite Hrs in Hst. by apply stage_answers_only.
  - destruct (responses_asked eng qs s) as [_ Hall]. rewrite Hrs in Hall.
    exact (Hall rs eq_refl).
Qed.

(** What a run of the notebook that reaches the end has done: its calls,
    the data that went from the test set to the upload, and its frames. *)
Lemma notebook_complete s :
  outcome (notebook s) = inr tt ->
  exists rd docs gen ts sc em vi eng answering df qs d ds c p w w' wt wt' wv wv' wb wb',
    load_data sdk rd w = (inr docs, w') /\
    testset_to_pandas sdk ts wt = (inr df, wt') /\
    from_documents sdk docs sc em wv = (inr vi, wv') /\
    as_query_engine sdk vi 2 wb = (inr eng, wb') /\
    df_getitem sdk df "question" = inr qs /\
    Forall (fun ev => stage ev = GenerateAnswers) answering /\
    omap asked answering = question :: qs /\
    dataset_of eng df d /\
    pack sdk d = inr ds /\
    events (trace (notebook s)) =
      complete_trace rd docs gen ts sc em vi answering d ds c p /\
    frames (final (notebook s)) =
      frames s ++ [df; first_rows df; dataset_frame (pandas_columns sdk ds)] /\
    (EAddDataframe p (dataset_frame (pandas_columns sdk ds)) validation_dataset_config, None)
      ∈ trace (notebook s).
Proof.
  destruct (notebook s) as [[[x|[]] s'] t] eqn:H; [discriminate|]. intros _.
  unfold notebook in H.
  apply run_bind_returns in H as ([] & s1 & t1 & ? & H1 & H & ->).
  apply run_bind_returns in H as ([] & s2 & t2 & ? & H2 & H & ->).
  apply run_bind_returns in H as ([docs test_df] & s3 & t3 & ? & H3 & H & ->).
  apply run_bind_returns in H as ([] & s4 & t4 & ? & H4 & H & ->).
  apply run_bind_returns in H as (eng & s5 & t5 & ? & H5 & H & ->).
  apply run_bind_returns in H as (demo & s6 & t6 & ? & H6 & H & ->).
  apply run_bind_returns in H as (ds & s7 & t7 & ? & H7 & H & ->).
  apply run_bind_returns in H as (ragas_df & s8 & t8 & ? & H8 & H & ->).
  apply run_bind_returns in H as (c & s9 & t9 & ? & H9 & H & ->).
  apply run_bind_returns in H as (p & s10 & t10 & ? & H10 & H & ->).
  apply run_bind_returns in H as ([] & s11 & t11 & ? & H11 & H & ->).
  apply run_bind_returns in H as ([] & s12 & t12 & ? & H12 & H & ->).
  unfold cell_push in H.
  apply run_bind_returns in H as ([] & s13 & t13 & ? & H13 & H & ->).
  apply call_returns in H1 as (_ & F1 & ->), H2 as (_ & F2 & ->), H4 as (_ & F4 & ->),
    H9 as (_ & F9 & ->), H10 as (_ & F10 & ->), H12 as (_ & F12 & ->),
    H13 as (_ & F13 & ->), H as (_ & F14 & ->).
  apply cell_testset_returns in H3
    as (rd & gen & ts & df & w & w' & wt & wt' & Hload & Hts & -> & F3 & Ht3).
  apply build_query_engine_returns in H5
    as (sc & em & vi & wv & wv' & wb & wb' & Hvi & Heng & F5 & Ht5).
  pose proof (staged_single eng question s5) as Hdemo. rewrite H6 in Hdemo.
  apply stage_answers_only in Hdemo.
  pose proof (keeps_frames_single eng question s5) as F6. rewrite H6 in F6.
  pose proof (single_response_asked eng question s5) as A6. rewrite H6 in A6.
  unfold same_frames, final, trace in Hdemo, F6, A6. cbn [fst snd] in Hdemo, F6, A6.
  apply ragas_dataset_complete in H7
    as (df' & qs & d & tq & Hdf' & Hqs & Hd & Hp & F7 & -> & Sq & A7).
  rewrite F6, F5, F4, F3, F2, F1, lookup_app_r, Nat.sub_diag in Hdf' by done.
  injection Hdf' as <-.
  apply dataset_to_pandas_returns in H8 as (-> & F8 & ->).
  apply cell_add_dataframe_returns in H11 as (up & Hup & F11 & ->).
  rewrite F10, F9, F8, lookup_app_r, Nat.sub_diag in Hup by done.
  injection Hup as <-.
  exists rd, docs, gen, ts, sc, em, vi, eng, (events t6 ++ events tq), df, qs, d, ds, c, p,
    w, w', wt, wt', wv, wv', wb, wb'.
  split_and!; [done|done|done|done|done| | |done|done| | |].
  - by apply Forall_app.
  - by rewrite omap_app, A6, A7.
  - unfold trace, complete_trace. cbn [snd].
    rewrite !events_app, Ht3, Ht5. cbn. do 12 f_equal.
    unfold events. rewrite fmap_app, <- !app_assoc. done.
  - unfold final. cbn [fst snd].
    rewrite F14, F13, F12, F11, F10, F9, F8, F7, F6, F5, F4, F3, F2, F1.
    by rewrite <- app_assoc.
  - unfold trace. cbn [snd]. rewrite !elem_of_app.
    do 10 right. left. by apply list_elem_of_singleton.
Qed.

End Complete.

(** ** The dataset: schema, provenance and row alignment *)

Section DatasetClaims.

Context {sdk : Sdk}.

Implicit Types (s : State sdk) (t : list (Call sdk)) (e : Exn sdk).
Implicit Types (eng : QueryEngine sdk) (docs : Documents sdk) (q : pyval) (r : nat).



(** The dataset the library makes of four columns of one length holds
    each of them under its name, and nothing else. *)
Lemma pack_four_holds (qs ans cs gts : list pyval) ds :
  length ans = length qs -> length cs = length qs -> length gts = length qs ->
  pack sdk (four_columns qs ans cs gts) = inr ds ->
  column_names ds = ["question"; "answer"; "contexts"; "ground_truth"] /\
  holds sdk ds "question" qs /\ holds sdk ds "answer" ans /\
  holds sdk ds "contexts" cs /\ holds sdk ds "ground_truth" gts.
Proof.
  intros La Lc Lg Hp. pose proof (pack_four (sdk:=sdk) qs ans cs gts La Lc Lg) as H.
  rewrite Hp in H. destruct H as (qs' & ans' & cs' & gts' & Hq & Ha & Hc & Hg & ->).
  split_and!; [done|by exists qs'|by exists ans'|by exists cs'|by exists gts'].
Qed.



End DatasetClaims.

(** ** The script as a whole *)

Section ScriptClaims.

Context {sdk : Sdk}.

Implicit Types (s : State sdk) (t : list (Call sdk)) (e : Exn sdk).
Implicit Types (eng : QueryEngine sdk) (docs : Documents sdk) (q : pyval) (r : nat).

Lemma sorted_positions (evs : list (Event sdk)) i j ev1 ev2 :
  StronglySorted not_after evs ->
  evs !! i = Some ev1 -> evs !! j = Some ev2 ->
  (stage_index (stage ev1) < stage_index (stage ev2))%nat -> (i < j)%nat.
Proof.
  intros Hs H1 H2 Hlt. destruct (decide (i < j)%nat) as [|Hge]; [done|exfalso].
  destruct (decide (i = j)) as [->|Hne]; [simplify_eq; lia|].
  assert (j < i)%nat as Hji by lia. clear Hge Hne.
  rewrite <- (take_drop_middle evs j ev2 H2) in Hs, H1.
  apply StronglySorted_app in Hs as (_ & _ & Hs).
  apply StronglySorted_cons in Hs as [Hall _].
  assert (length (take j evs) = j) as Hlen.
  { rewrite length_take. apply lookup_lt_Some in H2. lia. }
  rewrite lookup_app_r, Hlen in H1 by lia.
  destruct (i - j)%nat as [|k] eqn:Hk; [lia|]. simpl in H1.
  rewrite Forall_forall in Hall.
  assert (not_after ev2 ev1) as Hna.
  { apply Hall. eapply list_elem_of_lookup_2. exact H1. }
  unfold not_after in Hna. lia.
Qed.

(** C4.  The notebook is a linear script.  In every run, complete or
    not, the calls come step by step: set-up, loading the documents,
    generating the test set, building the query engine, generating the
    answers, packaging the dataset, uploading; so a call of an earlier step
    is at an earlier position, and no upload call precedes the packaging.
    A run that reaches the end makes exactly the calls of
    [complete_trace]: the index is built from the documents [load_data]
    returned and the engine from that index; the calls that generate the
    answers ask the demonstration question and then every question of the
    question column of the test set's frame, in the column's order; the
    dict packaged is the one [generate_ragas_dataset] makes of that frame
    with the engine built, and the dataset the library makes of it is the
    one converted and uploaded. *)
Theorem linear_script s :
  StronglySorted not_after (events (trace (notebook s))) /\
  (forall i j ev1 ev2,
     events (trace (notebook s)) !! i = Some ev1 ->
     events (trace (notebook s)) !! j = Some ev2 ->
     (stage_index (stage ev1) < stage_index (stage ev2))%nat -> (i < j)%nat) /\
  (outcome (notebook s) = inr tt ->
   exists rd docs gen ts sc em vi eng answering df qs d ds c p w w' wt wt' wv wv' wb wb',
     load_data sdk rd w = (inr docs, w') /\
     testset_to_pandas sdk ts wt = (inr df, wt') /\
     from_documents sdk docs sc em wv = (inr vi, wv') /\
     as_query_engine sdk vi 2 wb = (inr eng, wb') /\
     df_getitem sdk df "question" = inr qs /\
     Forall (fun ev => stage ev = GenerateAnswers) answering /\
     omap asked answering = question :: qs /\
     dataset_of eng df d /\
     pack sdk d = inr ds /\
     events (trace (notebook s)) =
       complete_trace rd docs gen ts sc em vi answering d ds c p).
Proof.
  pose proof (staged_notebook s) as [Hs _].
  split_and!; [done| |].
  { intros i j ev1 ev2. by apply sorted_positions. }
  intros Hend.
  destruct (notebook_complete s Hend)
    as (rd & docs & gen & ts & sc & em & vi & eng & answering & df & qs & d & ds & c & p
        & w & w' & wt & wt' & wv & wv' & wb & wb'
        & H1 & H2 & H3 & H4 & H5 & H6 & H7 & H8 & H9 & H10 & _).
  by exists rd, docs, gen, ts, sc, em, vi, eng, answering, df, qs, d, ds, c, p,
    w, w', wt, wt', wv, wv', wb, wb'.
Qed.

(** C5.  The script hands over two credentials and no other: in every run
    each environment variable set and each client key passed is the OpenAI
    key in OPENAI_API_KEY or the Openlayer key given to OpenlayerClient, and
    a run that reaches the end has handed over exactly these two, in this
    order. *)
Theorem two_credentials s :
  Forall (fun c => c = openai_key \/ c = openlayer_key)
         (omap credential (events (trace (notebook s)))) /\
  (outcome (notebook s) = inr tt ->
   omap credential (events (trace (notebook s))) = [openai_key; openlayer_key]).
Proof.
  split.
  - eapply Forall_omap_implies; [|apply script_events_notebook].
    intros ev c Hev Hc. destruct ev; simpl in *; simplify_eq.
    + destruct Hev as [-> ->]. by left.
    + by right.
  - intros Hend.
    destruct (notebook_complete s Hend)
      as (rd & docs & gen & ts & sc & em & vi & eng & answering & df & qs & d & ds & c & p
          & w & w' & wt & wt' & wv & wv' & wb & wb'
          & _ & _ & _ & _ & _ & Ha & _ & _ & _ & -> & _).
    unfold complete_trace. rewrite !omap_app, (omap_none _ answering); [done|].
    eapply Forall_impl; [exact Ha|]. intros ev Hev. by destruct ev.
Qed.

End ScriptClaims.

(** ** The literals *)

Section Literals.

Context {sdk : Sdk}.

Implicit Types (s : State sdk) (t : list (Call sdk)).
Implicit Types (eng : QueryEngine sdk) (docs : Documents sdk) (q : pyval) (r : nat).


Lemma script_event_consistent (ev : Event sdk) :
  script_event ev -> config_consistent ev.
Proof.
  destruct ev; simpl; try done.
  - by intros ->.
  - by intros ->.
  - intros ->. unfold config_columns. simpl.
    etrans; [apply perm_swap|]. apply perm_skip, perm_swap.
Qed.

(** C10.  The uploaded configs agree with the pipeline.  The metadata of
    [model_config] gives top_k 2 and chunk_size 512, the values
    [build_query_engine] passes as similarity_top_k and chunk_size; the
    four column names of [validation_dataset_config] are, up to order, the
    column names of every dataset [generate_ragas_dataset] returns; and in
    every run of the notebook each call agrees with the configs, which are
    the ones handed to add_dataframe and add_model. *)
Theorem configs_match_pipeline :
  pyget "metadata" model_config ≫= pyget "top_k" = Some (PInt 2) /\
  pyget "metadata" model_config ≫= pyget "chunk_size" = Some (PInt 512) /\
  (forall docs s, Forall config_consistent (events (trace (build_query_engine docs s)))) /\
  (forall docs s eng s' t,
     build_query_engine docs s = (inr eng, s', t) ->
     exists sc em vi,
       events t = [EServiceContext 512; EOpenAIEmbedding; EFromDocuments docs sc em;
                   EAsQueryEngine vi 2]) /\
  config_columns validation_dataset_config =
    [PStr "contexts"; PStr "question"; PStr "answer"; PStr "ground_truth"] /\
  (forall eng r s ds,
     outcome (generate_ragas_dataset eng r s) = inr ds ->
     config_columns validation_dataset_config ≡ₚ PStr <$> column_names ds) /\
  (forall s, Forall config_consistent (events (trace (notebook s)))).
Proof.
  split_and!; try reflexivity.
  - intros docs s. eapply Forall_impl; [apply script_events_build|].
    apply script_event_consistent.
  - intros docs s eng s' t H.
    apply build_query_engine_returns in H as (sc & em & vi & _ & _ & _ & _ & _ & _ & _ & H).
    by exists sc, em, vi.
  - intros eng r s ds Hds.
    destruct (generate_ragas_dataset eng r s) as [[[x|ds'] s'] t] eqn:H; [discriminate|].
    injection Hds as ->.
    apply ragas_dataset_complete in H
      as (df & qs & d & tq & _ & _ & (qs' & gts & ans & cs & Hqs & Hgts & La & Lc & _ & ->)
          & Hp & _).
    apply df_getitem_length in Hqs as Lq, Hgts as Lg.
    apply pack_four_holds in Hp as [-> _]; [|congruence..].
    by apply (script_event_consistent (EFromDict (four_columns [] [] [] []))).
  - intros s. eapply Forall_impl; [apply script_events_notebook|].
    apply script_event_consistent.
Qed.

End Literals.

(** * Further properties of the script *)

(** ** Missing columns and the empty frame *)

Section Columns.

Context {sdk : Sdk}.

Implicit Types (s : State sdk) (t : list (Call sdk)) (e : Exn sdk).
Implicit Types (eng : QueryEngine sdk) (docs : Documents sdk) (q : pyval) (r : nat).

Lemma df_getitem_missing df c :
  index_of c (df_columns df) = None -> df_getitem sdk df c = inl (KeyError c).
Proof.
  intros H. destruct (df_getitem sdk df c) as [x|col] eqn:E.
  - by apply df_getitem_inl in E as [-> _].
  - apply df_getitem_inr in E as [[j Hj] _]. congruence.
Qed.

Lemma df_getitem_raises df c x :
  df_getitem sdk df c = inl x -> x = KeyError c.
Proof.
  intros H. by apply df_getitem_inl in H as [-> _].
Qed.

Lemma df_getitem_present df c :
  is_Some (index_of c (df_columns df)) ->
  exists col, df_getitem sdk df c = inr col /\ length col = length (df_rows df).
Proof.
  intros [j Hj]. destruct (df_getitem sdk df c) as [x|col] eqn:E.
  - apply df_getitem_inl in E as [_ E]. congruence.
  - exists col. split; [done|]. by apply df_getitem_length in E.
Qed.

(** Without the frame or without its question column nothing is asked. *)
Lemma ragas_dataset_no_frame eng r s :
  frames s !! r = None ->
  generate_ragas_dataset eng r s = (inl (InvalidFrame r), s, []).
Proof.
  intros H. unfold generate_ragas_dataset, getitem.
  rewrite !run_bind. unfold read_frame. by rewrite H.
Qed.

Lemma ragas_dataset_no_question eng r s df x :
  frames s !! r = Some df ->
  df_getitem sdk df "question" = inl x ->
  generate_ragas_dataset eng r s = (inl x, s, []).
Proof.
  intros Hdf Hq. unfold generate_ragas_dataset.
  by rewrite run_bind, (run_getitem _ _ _ _ Hdf), Hq.
Qed.

(** X1.  On a test frame without a question column,
    [generate_ragas_dataset] raises KeyError for "question" before anything
    else happens: no call is made and the state is as it was. *)
Theorem missing_question_column eng r s df :
  frames s !! r = Some df ->
  index_of "question" (df_columns df) = None ->
  generate_ragas_dataset eng r s = (inl (KeyError "question"), s, []).
Proof.
  intros Hdf Hq. eapply ragas_dataset_no_question; [done|].
  by apply df_getitem_missing.
Qed.

End Columns.

(** ** The questions asked *)

Section Asked.

Context {sdk : Sdk}.

Implicit Types (s : State sdk) (t : list (Call sdk)) (e : Exn sdk).
Implicit Types (eng : QueryEngine sdk) (docs : Documents sdk) (q : pyval) (r : nat).

(** X5.  [generate_ragas_dataset] asks the engine the questions of the
    frame's question column, each once and in the column's order: in every
    run the questions asked are an initial part of the column, and they
    are the whole column whenever a dataset is returned. *)
Theorem questions_asked_in_order eng r s df (qs : list pyval) :
  frames s !! r = Some df ->
  df_getitem sdk df "question" = inr qs ->
  omap asked (events (trace (generate_ragas_dataset eng r s))) `prefix_of` qs /\
  forall ds, outcome (generate_ragas_dataset eng r s) = inr ds ->
    omap asked (events (trace (generate_ragas_dataset eng r s))) = qs.
Proof.
  intros Hdf Hqs. rewrite (ragas_dataset_run _ _ _ _ _ Hdf Hqs).
  destruct (responses_asked eng qs s) as [Hpre Hall].
  destruct (mapM (generate_single_response eng) qs s) as [[[x|rs] s1] t1];
    [by split|].
  destruct (df_getitem sdk df "ground_truth") as [x|gts]; [by split|].
  unfold trace, outcome, events in *. cbn [fst snd] in *.
  rewrite fmap_app, omap_app, (Hall rs eq_refl). cbn. rewrite app_nil_r.
  by split.
Qed.

(** X2.  On a test frame with a question column and no ground_truth
    column, [generate_ragas_dataset] never returns; the missing column is
    noticed only after the questions were asked: when the responses to all
    the questions come back, it raises KeyError for "ground_truth" in the
    state these calls left, having made them all. *)
Theorem missing_ground_truth_column eng r s df (qs : list pyval) :
  frames s !! r = Some df ->
  df_getitem sdk df "question" = inr qs ->
  index_of "ground_truth" (df_columns df) = None ->
  (forall ds, outcome (generate_ragas_dataset eng r s) <> inr ds) /\
  (forall rs s' t,
     mapM (generate_single_response eng) qs s = (inr rs, s', t) ->
     generate_ragas_dataset eng r s = (inl (KeyError "ground_truth"), s', t)) /\
  (never_raises eng ->
   outcome (generate_ragas_dataset eng r s) = inl (KeyError "ground_truth") /\
   omap asked (events (trace (generate_ragas_dataset eng r s))) = qs).
Proof.
  intros Hdf Hqs Hgt. rewrite (ragas_dataset_run _ _ _ _ _ Hdf Hqs).
  rewrite (df_getitem_missing _ _ Hgt). split_and!.
  - intros ds. by destruct (mapM (generate_single_response eng) qs s) as [[[x|rs] s1] t1].
  - by intros rs s' t ->.
  - intros Hnr.
    destruct (mapM_total (generate_single_response eng) qs s) as (rs & s' & t & Hrs).
    { intros q s0. by apply single_response_total. }
    destruct (responses_asked eng qs s) as [_ Hall].
    rewrite Hrs in *. split; [done|]. by apply (Hall rs).
Qed.

(** X3.  On a test frame that has both columns and no row,
    [generate_ragas_dataset] asks nothing and returns the dataset of four
    empty columns; its one call is the packaging, and the state is as it
    was. *)
Theorem empty_frame_dataset eng r s df :
  frames s !! r = Some df ->
  df_rows df = [] ->
  is_Some (index_of "question" (df_columns df)) ->
  is_Some (index_of "ground_truth" (df_columns df)) ->
  let d := [("question", []); ("answer", []); ("contexts", []); ("ground_truth", [])] in
  generate_ragas_dataset eng r s = (inr {| ds_data := d |}, s, [(EFromDict d, None)]).
Proof.
  intros Hdf Hrows Hq Hgt.
  destruct (df_getitem_present (sdk:=sdk) df "question" Hq) as (qs & Hqs & Hlq).
  destruct (df_getitem_present (sdk:=sdk) df "ground_truth" Hgt) as (gts & Hgts & Hlg).
  rewrite Hrows in Hlq, Hlg. apply nil_length_inv in Hlq, Hlg. subst qs gts.
  by rewrite (ragas_dataset_run _ _ _ _ _ Hdf Hqs), Hgts.
Qed.

(** X6.  When [generate_single_response] returns, it has made one query
    and then one get_content call for each source node of the response, in
    the nodes' order, and every call returned; its dict holds the
    response's text and one context per source node, in the same order,
    each the content that call gave. *)
Theorem single_response_calls eng q s d s' t :
  generate_single_response eng q s = (inr d, s', t) ->
  exists rsp w' cs,
    query sdk eng q (world s) = (inr rsp, w') /\
    events t = response_calls eng q rsp /\
    Forall (fun c : Call sdk => c.2 = None) t /\
    d = response_dict rsp cs /\
    Forall2 content_of (source_nodes rsp) cs /\
    length cs = length (source_nodes rsp).
Proof.
  intros H.
  apply single_response_returns in H as (rsp & w' & cs & t' & Hq & Hcs & -> & ->).
  destruct (node_contents_calls _ _ _ _ _ Hcs) as [Hev Hall].
  exists rsp, w', cs. split_and!; [done| |by constructor|done| |].
  - unfold response_calls, events in *. rewrite fmap_cons. cbn [fst]. by rewrite Hev.
  - eapply mapM_Forall2; [|exact Hcs].
    intros c s2 x s3 t3 Hx. apply node_content_returns in Hx as [Hx _].
    by exists (world s2), (world s3).
  - by apply mapM_returns_length in Hcs.
Qed.

End Asked.

(** ** The exceptions the script can end with *)

Section Safety.

Context {sdk : Sdk}.

Implicit Types (s : State sdk) (t : list (Call sdk)) (e : Exn sdk).
Implicit Types (eng : QueryEngine sdk) (docs : Documents sdk) (q : pyval) (r : nat).
Implicit Types (E : Exn sdk -> Prop) (P : list DataFrame -> Prop).

Lemma safe_weaken {A} E E' P P' (Q Q' : A -> list DataFrame -> Prop) (m : M sdk A) :
  (forall x, E x -> E' x) -> (forall fs, P' fs -> P fs) ->
  (forall a fs, Q a fs -> Q' a fs) ->
  safe E P m Q -> safe E' P' m Q'.
Proof.
  intros HE HP HQ Hm s Hs. specialize (Hm s (HP _ Hs)).
  destruct (outcome (m s)); auto.
Qed.

Lemma safe_ret {A} E P (a : A) : safe E P (mret a : M sdk A) (fun _ => P).
Proof. by intros s Hs. Qed.

Lemma safe_ret_post {A} E P (Q : A -> list DataFrame -> Prop) (a : A) :
  (forall fs, P fs -> Q a fs) -> safe E P (mret a : M sdk A) Q.
Proof. intros HQ s Hs. by apply HQ. Qed.

Lemma safe_bind {A B} E P (Q : A -> list DataFrame -> Prop)
      (Q' : B -> list DataFrame -> Prop) (m : M sdk A) (f : A -> M sdk B) :
  safe E P m Q -> (forall a, safe E (Q a) (f a) Q') -> safe E P (m ≫= f) Q'.
Proof.
  intros Hm Hf s Hs. specialize (Hm s Hs). rewrite run_bind.
  destruct (m s) as [[[x|a] s1] t1]; [exact Hm|].
  unfold outcome, final in *. cbn [fst snd] in *.
  specialize (Hf a s1 Hm). by destruct (f a s1) as [[y s2] t2].
Qed.

Lemma safe_call {A} P ev (f : ext (World sdk) (SdkError sdk) A) :
  safe sdk_error P (call ev f) (fun _ => P).
Proof.
  intros s Hs. rewrite run_call.
  destruct (f (world s)) as [[x|a] w]; [by exists x|done].
Qed.

Lemma safe_local {A} E P ev (a : A) : safe E P (local ev (inr a)) (fun _ => P).
Proof. by intros s Hs. Qed.

Lemma safe_new E P df :
  safe E P (new_frame (sdk:=sdk) df)
       (fun r fs => exists fs0, P fs0 /\ fs = fs0 ++ [df] /\ r = length fs0).
Proof. intros s Hs. by exists (frames s). Qed.

Lemma safe_read E P r :
  safe E (fun fs => P fs /\ (r < length fs)%nat) (read_frame (sdk:=sdk) r)
       (fun df fs => P fs /\ fs !! r = Some df).
Proof.
  intros s [Hs Hr]. unfold read_frame.
  destruct (lookup_lt_is_Some_2 _ _ Hr) as [df Hdf]. by rewrite Hdf.
Qed.

Lemma safe_mapM {A B} E P (f : A -> M sdk B) l :
  (forall x, safe E P (f x) (fun _ => P)) -> safe E P (mapM f l) (fun _ => P).
Proof.
  intros Hf. induction l as [|x l IH]; [apply safe_ret|].
  rewrite mapM_cons. eapply safe_bind; [apply Hf|]. intros y.
  eapply safe_bind; [apply IH|]. intros k. apply safe_ret.
Qed.

(** [generate_single_response] raises only what its SDK calls raise. *)
Lemma safe_single P eng q :
  safe sdk_error P (generate_single_response eng q) (fun _ => P).
Proof.
  eapply safe_bind; [apply safe_call|]. intros rsp.
  eapply safe_bind; [|intros; apply safe_ret].
  apply safe_mapM. intros c. apply safe_call.
Qed.

Lemma safe_build P docs :
  safe sdk_error P (build_query_engine (sdk:=sdk) docs) (fun _ => P).
Proof.
  repeat (eapply safe_bind; [apply safe_call|]; intros ?). apply safe_ret.
Qed.

(** The keys [generate_ragas_dataset] can miss are the two columns of the
    frame, and only when the frame lacks them; everything else it raises
    comes from an SDK call or from the datasets library. *)
Lemma ragas_dataset_raises eng r s df x :
  frames s !! r = Some df ->
  outcome (generate_ragas_dataset eng r s) = inl x ->
  (x = KeyError "question" /\ index_of "question" (df_columns df) = None) \/
  (x = KeyError "ground_truth" /\ index_of "ground_truth" (df_columns df) = None) \/
  sdk_error x.
Proof.
  intros Hdf.
  destruct (df_getitem sdk df "question") as [y|qs] eqn:Hqs.
  { rewrite (ragas_dataset_no_question _ _ _ _ _ Hdf Hqs). intros [= <-].
    left. by apply df_getitem_inl in Hqs. }
  rewrite (ragas_dataset_run _ _ _ _ _ Hdf Hqs).
  pose proof (safe_mapM sdk_error (fun _ => True) (generate_single_response eng) qs
                (safe_single _ eng) s I) as Hrs.
  destruct (mapM (generate_single_response eng) qs s) as [[[y|rs] s1] t1] eqn:Hm.
  { intros [= <-]. by right; right. }
  destruct (df_getitem sdk df "ground_truth") as [y|gts] eqn:Hgts.
  { intros [= <-]. right; left. by apply df_getitem_inl in Hgts. }
  cbn zeta. unfold outcome. cbn [fst]. intros Hx.
  destruct (responses_lengths _ _ _ _ _ _ _ _ Hqs Hgts Hm) as (La & Lc & Lg).
  pose proof (pack_four (sdk:=sdk) _ _ _ _ La Lc Lg) as H4. rewrite Hx in H4.
  by right; right.
Qed.

(** X4.  On an existing frame, [generate_ragas_dataset] can end with three
    kinds of exception only: KeyError for "question" or for "ground_truth",
    each only when the frame lacks that column, and what an SDK call or the
    datasets library raised.  The dicts of the responses always have their
    keys and the four columns always have one length, so on a frame with
    both columns nothing else can make it raise; and when the engine
    answers, what it raises there is what the library raised on the dict
    of the four columns, in its last call. *)
Theorem generate_ragas_dataset_exceptions eng r s df x :
  frames s !! r = Some df ->
  outcome (generate_ragas_dataset eng r s) = inl x ->
  ((x = KeyError "question" /\ index_of "question" (df_columns df) = None) \/
   (x = KeyError "ground_truth" /\ index_of "ground_truth" (df_columns df) = None) \/
   sdk_error x) /\
  (is_Some (index_of "question" (df_columns df)) ->
   is_Some (index_of "ground_truth" (df_columns df)) -> sdk_error x) /\
  (is_Some (index_of "question" (df_columns df)) ->
   is_Some (index_of "ground_truth" (df_columns df)) ->
   never_raises eng ->
   exists d, dataset_of eng df d /\ pack sdk d = inl x /\
     last (trace (generate_ragas_dataset eng r s)) = Some (EFromDict d, Some x)).
Proof.
  intros Hdf Hx. pose proof (ragas_dataset_raises _ _ _ _ _ Hdf Hx) as H.
  split_and!; [exact H| |].
  { intros [i Hi] [j Hj]. destruct H as [[_ H]|[[_ H]|H]]; [congruence..|done]. }
  intros Hq Hg Hnr.
  destruct (df_getitem_present (sdk:=sdk) df "question" Hq) as (qs & Hqs & _).
  destruct (df_getitem_present (sdk:=sdk) df "ground_truth" Hg) as (gts & Hgts & _).
  rewrite (ragas_dataset_run _ _ _ _ _ Hdf Hqs) in Hx |- *.
  destruct (mapM_total (generate_single_response eng) qs s) as (rs & s' & t & Hrs).
  { intros q s0. by apply single_response_total. }
  rewrite Hrs, Hgts in Hx |- *. cbn zeta in Hx |- *.
  unfold outcome, trace in Hx |- *. cbn [fst snd] in Hx |- *.
  eexists. split_and!; [by eapply responses_dataset_of|exact Hx|].
  by rewrite Hx, last_snoc.
Qed.

Lemma safe_dataset P eng r :
  safe column_or_sdk_error (fun fs => P fs /\ (r < length fs)%nat)
       (generate_ragas_dataset eng r) (fun _ fs => P fs /\ (r < length fs)%nat).
Proof.
  intros s [Hs Hr]. destruct (lookup_lt_is_Some_2 _ _ Hr) as [df Hdf].
  pose proof (keeps_frames_dataset eng r s) as Hk.
  pose proof (ragas_dataset_raises eng r s df) as Hx.
  destruct (generate_ragas_dataset eng r s) as [[[x|ds] s1] t1].
  - destruct (Hx x Hdf eq_refl) as [[-> _]|[[-> _]|H]].
    + by left.
    + by right; left.
    + by right; right.
  - unfold same_frames, final, outcome in *. cbn [fst snd] in *. by rewrite Hk.
Qed.

Lemma safe_sdk {A} P Q (m : M sdk A) :
  safe sdk_error P m Q -> safe column_or_sdk_error P m Q.
Proof. apply safe_weaken; [|done..]. intros x Hx. by right; right. Qed.

Lemma safe_testset :
  safe column_or_sdk_error (fun _ => True) (cell_testset sdk)
       (fun '(_, test_df) fs => (test_df < length fs)%nat).
Proof.
  unfold cell_testset.
  do 5 (eapply safe_bind; [apply safe_sdk, safe_call|]; intros ?).
  eapply safe_bind; [apply safe_new|]. intros test_df.
  eapply (safe_bind _ _ (fun _ fs => (test_df < length fs)%nat));
    [|intros; by apply safe_ret_post].
  unfold head. eapply safe_bind.
  { eapply safe_weaken;
      [| | |apply (safe_read column_or_sdk_error (fun fs => (test_df < length fs)%nat))];
      [done| |done].
    intros fs (fs0 & _ & -> & ->). cbn beta. rewrite length_app. simpl. lia. }
  intros df. eapply safe_weaken;
    [| | |apply (safe_new column_or_sdk_error (fun fs => (test_df < length fs)%nat))];
    [done|by intros fs [H _]|].
  intros r fs (fs0 & H & -> & _). cbn beta in *. rewrite length_app. lia.
Qed.

Lemma safe_notebook :
  safe column_or_sdk_error (fun _ => True) (notebook (sdk:=sdk)) (fun _ _ => True).
Proof.
  unfold notebook.
  eapply safe_bind; [apply safe_sdk, safe_call|]; intros ?.
  eapply safe_bind; [apply safe_sdk, safe_call|]; intros ?.
  eapply safe_bind; [apply safe_testset|]. intros [documents test_df].
  eapply safe_bind; [apply safe_sdk, safe_call|]; intros ?.
  eapply safe_bind; [apply safe_sdk, safe_build|]; intros eng.
  eapply safe_bind; [apply safe_sdk, safe_single|]; intros ?.
  eapply safe_bind.
  { eapply safe_weaken; [| | |apply (safe_dataset (fun _ => True))]; [done| |done].
    by intros fs. }
  intros ds. eapply safe_bind.
  { unfold dataset_to_pandas. eapply safe_bind; [apply safe_local|]. intros ?.
    apply safe_new. }
  intros ragas_df.
  eapply safe_bind; [apply safe_sdk, safe_call|]; intros client.
  eapply safe_bind; [apply safe_sdk, safe_call|]; intros project.
  eapply (safe_bind _ _ (fun _ _ => True)).
  { unfold cell_add_dataframe. eapply safe_bind.
    - eapply safe_weaken;
        [| | |apply (safe_read column_or_sdk_error (fun _ => True))]; [done| |done].
      intros fs (fs0 & _ & -> & ->). cbn beta. split; [done|].
      rewrite length_app. simpl. lia.
    - intros df.
      eapply safe_weaken; [| | |apply safe_sdk, (safe_call (fun _ => True))]; done. }
  intros ?.
  eapply safe_bind; [apply safe_sdk, safe_call|]; intros ?.
  unfold cell_push.
  eapply safe_bind; [apply safe_sdk, safe_call|]; intros ?.
  eapply safe_weaken; [| | |apply safe_sdk, (safe_call (fun _ => True))]; done.
Qed.

(** X9.  Whatever the SDKs do, a run of the notebook that raises ends with
    KeyError for "question" or "ground_truth" (the test set's frame lacks
    the column) or with what an SDK call or the datasets library raised:
    the script never uses a frame it has not created, never misses a key
    of a dict it built, and never hands the library columns of different
    lengths. *)
Theorem notebook_exceptions s x :
  outcome (notebook s) = inl x ->
  column_or_sdk_error x /\
  (forall r, x <> InvalidFrame r) /\
  x <> ArrowInvalid /\
  (forall k, x = KeyError k -> k = "question" \/ k = "ground_truth").
Proof.
  intros Hx. pose proof (safe_notebook s I) as H. rewrite Hx in H.
  split; [exact H|].
  destruct H as [->|[->|[err ->]]]; split_and!; try done.
  - intros k [= <-]. by left.
  - intros k [= <-]. by right.
Qed.

End Safety.

(** ** What the dataset depends on *)

Section WorldOnly.

Context {sdk : Sdk}.

Implicit Types (s : State sdk) (t : list (Call sdk)) (e : Exn sdk).
Implicit Types (eng : QueryEngine sdk) (docs : Documents sdk) (q : pyval) (r : nat).

Lemma world_only_ret {A} (a : A) : world_only (mret a : M sdk A).
Proof. by intros s1 s2 H. Qed.

Lemma world_only_call {A} ev (f : ext (World sdk) (SdkError sdk) A) :
  world_only (call ev f).
Proof.
  intros s1 s2 H. rewrite !run_call, H.
  by destruct (f (world s2)) as [[x|a] w].
Qed.

Lemma world_only_bind {A B} (m : M sdk A) (f : A -> M sdk B) :
  world_only m -> (forall a, world_only (f a)) -> world_only (m ≫= f).
Proof.
  intros Hm Hf s1 s2 H. rewrite !run_bind. specialize (Hm s1 s2 H).
  destruct (m s1) as [[[x1|a1] u1] t1], (m s2) as [[[x2|a2] u2] t2];
    unfold outcome, trace, final in *; cbn [fst snd] in *;
    destruct Hm as (Ho & Ht & Hw); try discriminate.
  - by simplify_eq.
  - injection Ho as ->. subst t2. specialize (Hf a2 u1 u2 Hw).
    destruct (f a2 u1) as [[r1 v1] t3], (f a2 u2) as [[r2 v2] t4].
    simpl in *. destruct Hf as (? & ? & ?). by simplify_eq.
Qed.

Lemma world_only_mapM {A B} (f : A -> M sdk B) l :
  (forall x, world_only (f x)) -> world_only (mapM f l).
Proof.
  intros Hf. induction l as [|x l IH]; [apply world_only_ret|].
  rewrite mapM_cons. apply world_only_bind; [done|]. intros y.
  apply world_only_bind; [done|]. intros k. apply world_only_ret.
Qed.

(** [generate_single_response] does not look at the frames. *)
Lemma world_only_single eng q : world_only (generate_single_response eng q).
Proof.
  apply world_only_bind; [apply world_only_call|]. intros rsp.
  apply world_only_bind; [|intros; apply world_only_ret].
  apply world_only_mapM. intros c. apply world_only_call.
Qed.

(** X7.  Of the test frame, [generate_ragas_dataset] uses the question and
    the ground_truth columns and nothing else: run in the same world on two
    frames that agree on these two columns (whatever their other columns,
    the contexts of the test set among them, and the order of the columns),
    it returns the same dataset or raises the same exception, makes the
    same calls and leaves the same world. *)
Theorem other_columns_ignored eng r1 r2 s1 s2 df1 df2 :
  world s1 = world s2 ->
  frames s1 !! r1 = Some df1 ->
  frames s2 !! r2 = Some df2 ->
  df_getitem sdk df1 "question" = df_getitem sdk df2 "question" ->
  df_getitem sdk df1 "ground_truth" = df_getitem sdk df2 "ground_truth" ->
  outcome (generate_ragas_dataset eng r1 s1) = outcome (generate_ragas_dataset eng r2 s2) /\
  trace (generate_ragas_dataset eng r1 s1) = trace (generate_ragas_dataset eng r2 s2) /\
  world (final (generate_ragas_dataset eng r1 s1))
    = world (final (generate_ragas_dataset eng r2 s2)).
Proof.
  intros Hw Hdf1 Hdf2 Hq Hgt.
  destruct (df_getitem sdk df1 "question") as [x|qs] eqn:Hq1; symmetry in Hq.
  { by rewrite (ragas_dataset_no_question _ _ _ _ _ Hdf1 Hq1),
      (ragas_dataset_no_question _ _ _ _ _ Hdf2 Hq). }
  rewrite (ragas_dataset_run _ _ _ _ _ Hdf1 Hq1), (ragas_dataset_run _ _ _ _ _ Hdf2 Hq).
  rewrite Hgt.
  pose proof (world_only_mapM (generate_single_response eng) qs
                (world_only_single eng) s1 s2 Hw) as (Ho & Ht & Hw').
  destruct (mapM (generate_single_response eng) qs s1) as [[[x1|rs1] u1] t1],
    (mapM (generate_single_response eng) qs s2) as [[[x2|rs2] u2] t2];
    unfold outcome, trace, final in *; cbn [fst snd] in *; simplify_eq; [done|].
  by destruct (df_getitem sdk df2 "ground_truth").
Qed.

End WorldOnly.

(** ** The frames of the notebook *)

Section Growth.

Context {sdk : Sdk}.

Implicit Types (s : State sdk) (t : list (Call sdk)) (e : Exn sdk).
Implicit Types (eng : QueryEngine sdk) (docs : Documents sdk) (q : pyval) (r : nat).

#[export] Instance grows_refl : Reflexive (grows (sdk:=sdk)).
Proof. intros s. unfold grows. done. Qed.

#[export] Instance grows_trans : Transitive (grows (sdk:=sdk)).
Proof. unfold grows. intros s1 s2 s3 H1 H2. by etrans. Qed.





End Growth.

(** ** The data of a run that reaches the end *)

Section CompleteClaims.

Context {sdk : Sdk}.

Implicit Types (s : State sdk) (t : list (Call sdk)) (e : Exn sdk).

(** Reading a column back from the frame of a dataset. *)
Lemma seq_nth_fmap {A} (l : list A) (d : A) n :
  n = length l -> (fun i => nth i l d) <$> seq 0 n = l.
Proof.
  intros ->. apply list_eq. intros i. rewrite list_lookup_fmap.
  destruct (decide (i < length l)%nat) as [Hi|Hi].
  - rewrite lookup_seq_lt by done. simpl.
    destruct (lookup_lt_is_Some_2 l i Hi) as [x Hx]. rewrite Hx.
    f_equal. by apply nth_lookup_Some with (d := d) in Hx.
  - rewrite lookup_seq_ge by lia. simpl. symmetry. apply lookup_ge_None. lia.
Qed.

Lemma dataset_frame_column (qs ans cs gts : list pyval) :
  length ans = length qs -> length cs = length qs -> length gts = length qs ->
  let up := dataset_frame {| ds_data := four_columns qs ans cs gts |} in
  df_getitem sdk up "question" = inr qs /\
  df_getitem sdk up "answer" = inr ans /\
  df_getitem sdk up "contexts" = inr cs /\
  df_getitem sdk up "ground_truth" = inr gts /\
  df_columns up = ["question"; "answer"; "contexts"; "ground_truth"] /\
  length (df_rows up) = length qs.
Proof.
  intros Ha Hc Hg up. unfold up, df_getitem, dataset_frame, num_rows. simpl.
  rewrite <- !list_fmap_compose. unfold compose. simpl.
  rewrite !seq_nth_fmap by done. split_and!; try done.
  by rewrite length_fmap, length_seq.
Qed.

(** The frame [Dataset.to_pandas] makes of the dataset of four columns of
    one length: the four columns, each converted cell by cell. *)
Lemma pandas_frame_column (qs ans cs gts : list pyval) :
  length ans = length qs -> length cs = length qs -> length gts = length qs ->
  let up := dataset_frame (pandas_columns sdk {| ds_data := four_columns qs ans cs gts |}) in
  df_getitem sdk up "question" = inr (pandas_column sdk qs <$> qs) /\
  df_getitem sdk up "answer" = inr (pandas_column sdk ans <$> ans) /\
  df_getitem sdk up "contexts" = inr (pandas_column sdk cs <$> cs) /\
  df_getitem sdk up "ground_truth" = inr (pandas_column sdk gts <$> gts) /\
  df_columns up = ["question"; "answer"; "contexts"; "ground_truth"] /\
  length (df_rows up) = length qs.
Proof.
  intros Ha Hc Hg.
  pose proof (dataset_frame_column (pandas_column sdk qs <$> qs)
                (pandas_column sdk ans <$> ans) (pandas_column sdk cs <$> cs)
                (pandas_column sdk gts <$> gts)) as H.
  rewrite !length_fmap in H. exact (H Ha Hc Hg).
Qed.


(** X10.  In a run that reaches the end, the frame handed to
    add_dataframe, with [validation_dataset_config], has the four columns
    question, answer, contexts and ground_truth and as many rows as the
    frame of the test set; its question and ground_truth columns are those
    of the test set's frame as the datasets library stored them and as
    [Dataset.to_pandas] converted them, cell by cell. *)
Theorem uploaded_frame s :
  outcome (notebook s) = inr tt ->
  exists ts w w' df qs gts qs' gts' p up,
    testset_to_pandas sdk ts w = (inr df, w') /\
    df_getitem sdk df "question" = inr qs /\
    df_getitem sdk df "ground_truth" = inr gts /\
    stored sdk qs = inr qs' /\
    stored sdk gts = inr gts' /\
    (EAddDataframe p up validation_dataset_config, None) ∈ trace (notebook s) /\
    df_columns up = ["question"; "answer"; "contexts"; "ground_truth"] /\
    length (df_rows up) = length (df_rows df) /\
    df_getitem sdk up "question" = inr (pandas_column sdk qs' <$> qs') /\
    df_getitem sdk up "ground_truth" = inr (pandas_column sdk gts' <$> gts').
Proof.
  intros Hend.
  destruct (notebook_complete s Hend)
    as (rd & docs & gen & ts & sc & em & vi & eng & answering & df & qs & d & ds & c & p
        & w & w' & wt & wt' & wv & wv' & wb & wb'
        & _ & Hts & _ & _ & Hqs & _ & _
        & (qs0 & gts & ans & cs & Hqs0 & Hgts & La & Lc & _ & ->) & Hp & _ & _ & Hup).
  rewrite Hqs in Hqs0. injection Hqs0 as <-.
  apply df_getitem_length in Hqs as Lq, Hgts as Lg.
  pose proof (pack_four (sdk:=sdk) qs ans cs gts) as H4.
  rewrite Hp in H4.
  destruct H4 as (qs' & ans' & cs' & gts' & Sq & Sa & Sc & Sg & ->); [congruence..|].
  apply stored_length in Sq as Lq', Sa as La', Sc as Lc', Sg as Lg'.
  destruct (pandas_frame_column qs' ans' cs' gts')
    as (Hq & _ & _ & Hg & Hcols & Hrows); [congruence..|].
  eexists ts, wt, wt', df, qs, gts, qs', gts', p, _.
  split_and!; [done|done|done|done|done|exact Hup|done| |done|done].
  rewrite Hrows. congruence.
Qed.

(** X11.  In a run that reaches the end, the engine is asked the
    demonstration question first and then the questions of the question
    column of the test set's frame, each once and in the column's order;
    nothing else is asked. *)
Theorem notebook_questions s :
  outcome (notebook s) = inr tt ->
  exists ts w w' df qs,
    testset_to_pandas sdk ts w = (inr df, w') /\
    df_getitem sdk df "question" = inr qs /\
    omap asked (events (trace (notebook s))) = question :: qs.
Proof.
  intros Hend.
  destruct (notebook_complete s Hend)
    as (rd & docs & gen & ts & sc & em & vi & eng & answering & df & qs & d & ds & c & p
        & w & w' & wt & wt' & wv & wv' & wb & wb'
        & _ & Hts & _ & _ & Hqs & _ & Hasked & _ & _ & -> & _).
  exists ts, wt, wt', df, qs. split_and!; [done..|].
  unfold complete_trace. rewrite !omap_app, Hasked. cbn. by rewrite app_nil_r.
Qed.

End CompleteClaims.

(** ** What a call presupposes *)

Section Gates.

Context {sdk : Sdk}.

Implicit Types (s : State sdk) (t : list (Call sdk)) (e : Exn sdk).
Implicit Types (eng : QueryEngine sdk) (docs : Documents sdk) (q : pyval) (r : nat).

(** A step that makes no call in [P] passes the gate on. *)
Lemma gated_bind {A B} P K (m : M sdk A) (f : A -> M sdk B) :
  all_events (fun ev => ~ P ev) m -> (forall a, gated P K (f a)) -> gated P K (m ≫= f).
Proof.
  intros Hm Hf s ev. rewrite trace_bind, events_app. specialize (Hm s).
  intros [Hin|Hin]%elem_of_app HP.
  - rewrite Forall_forall in Hm. by destruct (Hm ev Hin).
  - destruct (outcome (m s)) as [x|a]; [by apply elem_of_nil in Hin|].
    destruct (Hf a _ ev Hin HP) as (c & Hc & HK).
    exists c. split; [|done]. apply elem_of_app. by right.
Qed.

(** A step that makes a call in [K] whenever it returns opens the gate. *)
Lemma gated_open {A B} P K (m : M sdk A) (f : A -> M sdk B) :
  all_events (fun ev => ~ P ev) m ->
  (forall s a, outcome (m s) = inr a -> exists c, c ∈ trace (m s) /\ K c) ->
  gated P K (m ≫= f).
Proof.
  intros Hm Hk s ev. rewrite trace_bind, events_app. specialize (Hm s).
  intros [Hin|Hin]%elem_of_app HP.
  - rewrite Forall_forall in Hm. by destruct (Hm ev Hin).
  - destruct (outcome (m s)) as [x|a] eqn:Ho; [by apply elem_of_nil in Hin|].
    destruct (Hk s a Ho) as (c & Hc & HK).
    exists c. split; [|done]. apply elem_of_app. by left.
Qed.

Lemma all_events_staged {A} (P : Event sdk -> Prop) lo hi (m : M sdk A) :
  staged lo hi m ->
  (forall ev, (lo <= stage_index (stage ev) <= hi)%nat -> P ev) ->
  all_events P m.
Proof.
  intros Hm HP s. destruct (Hm s) as [_ H].
  eapply Forall_impl; [exact H|]. intros ev Hev. by apply HP.
Qed.

Lemma staged_testset : staged 1 2 (cell_testset sdk).
Proof.
  unfold cell_testset.
  apply (staged_bind 1 1 2); [lia|by apply staged_call|]. intros rd.
  apply (staged_bind 1 1 2); [lia|by apply staged_call|]. intros documents.
  apply (staged_bind 1 2 2); [lia| |].
  { apply (staged_weaken 2 2); [lia..|]. by apply staged_call. }
  intros gen. apply (staged_bind 2 2 2); [lia|by apply staged_call|].
  intros ts. apply (staged_bind 2 2 2); [lia|by apply staged_call|].
  intros df. apply (staged_bind 2 2 2); [lia|apply staged_new|].
  intros test_df. apply (staged_bind 2 2 2); [lia| |intros; apply staged_ret].
  apply (staged_bind 2 2 2); [lia|apply staged_read|]. intros. apply staged_new.
Qed.

Lemma ragas_dataset_packaged eng r s ds :
  outcome (generate_ragas_dataset eng r s) = inr ds ->
  exists c, c ∈ trace (generate_ragas_dataset eng r s) /\ packaged c.
Proof.
  destruct (generate_ragas_dataset eng r s) as [[[x|ds'] s'] t] eqn:H; [discriminate|].
  intros _.
  apply ragas_dataset_returns_inv in H as (df & qs & gts & rs & t1 & _ & _ & _ & _ & _ & ->).
  eexists. split; [apply elem_of_app; right; by apply list_elem_of_singleton|].
  by eexists.
Qed.

Lemma build_query_engine_built docs s eng :
  outcome (build_query_engine docs s) = inr eng ->
  exists c, c ∈ trace (build_query_engine docs s) /\ engine_built c.
Proof.
  destruct (build_query_engine docs s) as [[[x|eng'] s'] t] eqn:H; [discriminate|].
  intros _. unfold build_query_engine in H.
  apply run_bind_returns in H as (sc & s1 & t1 & ? & H1 & H & ->).
  apply run_bind_returns in H as (em & s2 & t2 & ? & H2 & H & ->).
  apply run_bind_returns in H as (vi & s3 & t3 & ? & H3 & H & ->).
  apply run_bind_returns in H as (eng'' & s4 & t4 & ? & H4 & H & ->).
  apply call_returns in H4 as (_ & _ & ->).
  exists (EAsQueryEngine vi 2, None). split; [|by exists vi].
  unfold trace. cbn [snd]. rewrite !elem_of_app. do 3 right. left.
  by apply list_elem_of_singleton.
Qed.

Lemma gated_upload :
  gated (fun ev => stage ev = Upload) packaged (notebook (sdk:=sdk)).
Proof.
  unfold notebook.
  apply gated_bind.
  { apply (all_events_staged _ 0 0); [by apply staged_call|].
    intros ev Hev Hup. rewrite Hup in Hev. simpl in Hev. lia. }
  intros ?. apply gated_bind.
  { apply (all_events_staged _ 0 0); [by apply staged_call|].
    intros ev Hev Hup. rewrite Hup in Hev. simpl in Hev. lia. }
  intros ?. apply gated_bind.
  { apply (all_events_staged _ 1 2); [apply staged_testset|].
    intros ev Hev Hup. rewrite Hup in Hev. simpl in Hev. lia. }
  intros [documents test_df]. apply gated_bind.
  { apply (all_events_staged _ 3 3); [by apply staged_call|].
    intros ev Hev Hup. rewrite Hup in Hev. simpl in Hev. lia. }
  intros ?. apply gated_bind.
  { apply (all_events_staged _ 3 3); [apply staged_build|].
    intros ev Hev Hup. rewrite Hup in Hev. simpl in Hev. lia. }
  intros eng. apply gated_bind.
  { apply (all_events_staged _ 4 4); [apply staged_single|].
    intros ev Hev Hup. rewrite Hup in Hev. simpl in Hev. lia. }
  intros ?. apply gated_open.
  { apply (all_events_staged _ 4 5); [apply staged_dataset|].
    intros ev Hev Hup. rewrite Hup in Hev. simpl in Hev. lia. }
  intros s ds. apply ragas_dataset_packaged.
Qed.

Lemma gated_query :
  gated (fun ev => is_Some (asked ev)) engine_built (notebook (sdk:=sdk)).
Proof.
  unfold notebook.
  apply gated_bind.
  { apply (all_events_staged _ 0 0); [by apply staged_call|].
    intros ev Hev [q Hq]. destruct ev; try discriminate. simpl in Hev. lia. }
  intros ?. apply gated_bind.
  { apply (all_events_staged _ 0 0); [by apply staged_call|].
    intros ev Hev [q Hq]. destruct ev; try discriminate. simpl in Hev. lia. }
  intros ?. apply gated_bind.
  { apply (all_events_staged _ 1 2); [apply staged_testset|].
    intros ev Hev [q Hq]. destruct ev; try discriminate. simpl in Hev. lia. }
  intros [documents test_df]. apply gated_bind.
  { apply (all_events_staged _ 3 3); [by apply staged_call|].
    intros ev Hev [q Hq]. destruct ev; try discriminate. simpl in Hev. lia. }
  intros ?. apply gated_open.
  { apply (all_events_staged _ 3 3); [apply staged_build|].
    intros ev Hev [q Hq]. destruct ev; try discriminate. simpl in Hev. lia. }
  intros s eng. apply build_query_engine_built.
Qed.

(** X12.  Nothing goes to Openlayer before the dataset is packaged: in
    every run of the notebook, complete or not, a call of the upload step
    (creating the client or the project, add_dataframe, add_model, commit,
    push) is made only if the packaging call of [generate_ragas_dataset]
    was made and returned. *)
Theorem upload_needs_dataset s ev :
  ev ∈ events (trace (notebook s)) ->
  stage ev = Upload ->
  exists d, (EFromDict d, None) ∈ trace (notebook s).
Proof.
  intros Hin Hup. destruct (gated_upload s ev Hin Hup) as (c & Hc & d & ->).
  by exists d.
Qed.

(** X13.  No question is asked before the engine is built: in every run of
    the notebook a query is made only if [build_query_engine] got as far as
    as_query_engine, called with similarity_top_k 2, and that call
    returned. *)
Theorem query_needs_engine s eng q :
  EQuery eng q ∈ events (trace (notebook s)) ->
  exists vi, (EAsQueryEngine vi 2, None) ∈ trace (notebook s).
Proof.
  intros Hin.
  destruct (gated_query s (EQuery eng q) Hin) as (c & Hc & vi & ->); [by eexists|].
  by exists vi.
Qed.

End Gates.

(** * The script on the small SDKs *)

Lemma toy_never_raises tick frame :
  never_raises (sdk:=toy_sdk_with tick None frame) tt.
Proof.
  split.
  - intros q w. destruct q; simpl; eauto.
  - intros n w. simpl. eauto.
Qed.

Lemma toy_fixed_responses tick refused frame :
  fixed_responses (sdk:=toy_sdk_with tick refused frame) tt.
Proof. split; intros; reflexivity. Qed.

Lemma quiet_read_only : read_only (sdk:=quiet_sdk) tt.
Proof. split; intros; reflexivity. Qed.



Lemma failures_propagate_witness :
  generate_single_response (sdk:=refusing_sdk) tt (PStr "q2") (toy_state refusing_sdk 0%nat)
    = (inl rate_limit, set_world (sdk:=refusing_sdk) 1%nat (toy_state refusing_sdk 0%nat),
       [(EQuery (sdk:=refusing_sdk) tt (PStr "q2"), Some rate_limit)]) /\
  outcome (generate_ragas_dataset (sdk:=refusing_sdk) tt 0%nat (toy_state refusing_sdk 0%nat))
    = inl rate_limit /\
  outcome (notebook (start refusing_sdk 0%nat)) = inl rate_limit.
Proof.
  destruct (failures_propagate (sdk:=refusing_sdk) tt) as (H1 & H2 & _ & _ & H5).
  split_and!.
  - apply H1. reflexivity.
  - erewrite (H2 0%nat (toy_state refusing_sdk 0%nat) toy_frame
                [PStr "q1"; PStr "q2"] 1%nat (PStr "q2")); reflexivity.
  - apply (H5 (start refusing_sdk 0%nat) (EQuery (sdk:=refusing_sdk) tt (PStr "q2"))).
    apply (list_elem_of_lookup_2 _ 18). reflexivity.
Defined.

Lemma linear_script_witness :
  StronglySorted not_after (events (trace (notebook (start counting_sdk 0%nat)))) /\
  exists rd docs gen ts sc em vi eng answering df qs d ds c p w w' wt wt' wv wv' wb wb',
    load_data counting_sdk rd w = (inr docs, w') /\
    testset_to_pandas counting_sdk ts wt = (inr df, wt') /\
    from_documents counting_sdk docs sc em wv = (inr vi, wv') /\
    as_query_engine counting_sdk vi 2 wb = (inr eng, wb') /\
    df_getitem counting_sdk df "question" = inr qs /\
    Forall (fun ev => stage ev = GenerateAnswers) answering /\
    omap asked answering = question :: qs /\
    dataset_of eng df d /\
    pack counting_sdk d = inr ds /\
    events (trace (notebook (start counting_sdk 0%nat))) =
      complete_trace rd docs gen ts sc em vi answering d ds c p.
Proof.
  destruct (linear_script (start counting_sdk 0%nat)) as (Hsorted & _ & Hend).
  split; [exact Hsorted|]. apply Hend. reflexivity.
Defined.

Lemma two_credentials_witness :
  omap credential (events (trace (notebook (start counting_sdk 0%nat))))
    = [openai_key; openlayer_key].
Proof.
  destruct (two_credentials (start counting_sdk 0%nat)) as [_ Hend].
  apply Hend. reflexivity.
Defined.

Lemma arguments_unchanged_witness :
  final (generate_single_response (sdk:=quiet_sdk) tt (PStr "q1") (toy_state quiet_sdk 0%nat))
    = toy_state quiet_sdk 0%nat /\
  final (generate_ragas_dataset (sdk:=quiet_sdk) tt 0%nat (toy_state quiet_sdk 0%nat))
    = toy_state quiet_sdk 0%nat.
Proof.
  destruct (arguments_unchanged (sdk:=quiet_sdk) tt) as (_ & _ & Hro).
  destruct (Hro quiet_read_only) as [Hsingle Hdataset].
  split; [apply Hsingle|apply Hdataset].
Defined.

Lemma fixed_responses_deterministic_witness :
  outcome (generate_ragas_dataset (sdk:=counting_sdk) tt 0%nat (toy_state counting_sdk 0%nat))
    = outcome (generate_ragas_dataset (sdk:=counting_sdk) tt 0%nat (toy_state counting_sdk 7%nat)) /\
  trace (generate_ragas_dataset (sdk:=counting_sdk) tt 0%nat (toy_state counting_sdk 0%nat))
    = trace (generate_ragas_dataset (sdk:=counting_sdk) tt 0%nat (toy_state counting_sdk 7%nat)).
Proof.
  destruct (fixed_responses_deterministic (sdk:=counting_sdk) tt 0%nat
              (toy_state counting_sdk 0%nat) (toy_state counting_sdk 7%nat)
              (toy_fixed_responses S None _) eq_refl) as (_ & Ho & Ht).
  split; [exact Ho|exact Ht].
Defined.

(** C7, as stated, fails.  The engine of [counting_sdk] gives fixed
    responses while its world changes with every call; no two runs of
    [generate_ragas_dataset] on one frame end differently, and the runs
    from the worlds 0 and 7 return the same dataset. *)
Lemma fixed_responses_runs_agree :
  fixed_responses (sdk:=counting_sdk) tt /\
  ~ two_runs_differ (sdk:=counting_sdk) tt 0%nat /\
  world (toy_state counting_sdk 0%nat) <> world (toy_state counting_sdk 7%nat) /\
  outcome (generate_ragas_dataset (sdk:=counting_sdk) tt 0%nat (toy_state counting_sdk 0%nat))
    = inr toy_dataset /\
  outcome (generate_ragas_dataset (sdk:=counting_sdk) tt 0%nat (toy_state counting_sdk 7%nat))
    = inr toy_dataset.
Proof.
  split_and!; [apply toy_fixed_responses| |discriminate|reflexivity..].
  intros (s1 & s2 & Hsame & Hdiff). apply Hdiff.
  by destruct (deterministic_dataset (sdk:=counting_sdk) 0%nat tt
                 (toy_fixed_responses S None _) s1 s2 Hsame) as (? & _).
Qed.

Lemma configs_match_pipeline_witness :
  (exists sc em vi,
     events (trace (build_query_engine (sdk:=counting_sdk) tt (start counting_sdk 0%nat)))
       = [EServiceContext 512; EOpenAIEmbedding;
          EFromDocuments (sdk:=counting_sdk) tt sc em; EAsQueryEngine vi 2]) /\
  config_columns validation_dataset_config ≡ₚ PStr <$> column_names toy_dataset.
Proof.
  destruct (configs_match_pipeline (sdk:=counting_sdk)) as (_ & _ & _ & Hbuild & _ & Hcols & _).
  split.
  - apply (Hbuild tt (start counting_sdk 0%nat) tt (start counting_sdk 4%nat)). reflexivity.
  - apply (Hcols tt 0%nat (toy_state counting_sdk 0%nat)). reflexivity.
Defined.

(** * The further properties on the small SDKs *)

Lemma missing_question_column_witness :
  generate_ragas_dataset (sdk:=counting_sdk) tt 0%nat
    (state_with counting_sdk unlabelled_frame 0%nat)
  = (inl (KeyError "question"), state_with counting_sdk unlabelled_frame 0%nat, []).
Proof.
  apply (missing_question_column (sdk:=counting_sdk) tt 0%nat
           (state_with counting_sdk unlabelled_frame 0%nat) unlabelled_frame);
    reflexivity.
Defined.

Lemma missing_ground_truth_column_witness :
  outcome (generate_ragas_dataset (sdk:=counting_sdk) tt 0%nat
             (state_with counting_sdk unanswered_frame 0%nat))
    = inl (KeyError "ground_truth") /\
  omap asked (events (trace (generate_ragas_dataset (sdk:=counting_sdk) tt 0%nat
                               (state_with counting_sdk unanswered_frame 0%nat))))
    = [PStr "q1"; PStr "q2"].
Proof.
  destruct (missing_ground_truth_column (sdk:=counting_sdk) tt 0%nat
              (state_with counting_sdk unanswered_frame 0%nat) unanswered_frame
              [PStr "q1"; PStr "q2"] eq_refl eq_refl eq_refl) as (_ & _ & H).
  apply H, toy_never_raises.
Defined.

Lemma empty_frame_dataset_witness :
  outcome (generate_ragas_dataset (sdk:=counting_sdk) tt 0%nat
             (state_with counting_sdk empty_frame 0%nat))
  = inr {| ds_data := [("question", []); ("answer", []); ("contexts", []);
                       ("ground_truth", [])] |}.
Proof.
  rewrite (empty_frame_dataset (sdk:=counting_sdk) tt 0%nat
             (state_with counting_sdk empty_frame 0%nat) empty_frame
             eq_refl eq_refl (mk_is_Some _ _ eq_refl) (mk_is_Some _ _ eq_refl)).
  reflexivity.
Defined.

Lemma generate_ragas_dataset_exceptions_witness :
  outcome (generate_ragas_dataset (sdk:=testset_sdk mixed_frame) tt 0%nat
             (state_with (testset_sdk mixed_frame) mixed_frame 0%nat))
    = inl arrow_type_error /\
  sdk_error arrow_type_error /\
  exists d,
    dataset_of (sdk:=testset_sdk mixed_frame) tt mixed_frame d /\
    pack (testset_sdk mixed_frame) d = inl arrow_type_error /\
    last (trace (generate_ragas_dataset (sdk:=testset_sdk mixed_frame) tt 0%nat
                   (state_with (testset_sdk mixed_frame) mixed_frame 0%nat)))
      = Some (EFromDict d, Some arrow_type_error).
Proof.
  destruct (generate_ragas_dataset_exceptions (sdk:=testset_sdk mixed_frame) tt 0%nat
              (state_with (testset_sdk mixed_frame) mixed_frame 0%nat) mixed_frame
              arrow_type_error eq_refl eq_refl) as (_ & H2 & H3).
  split_and!.
  - reflexivity.
  - apply H2; by eexists.
  - apply H3; [by eexists..|]. apply toy_never_raises.
Defined.

Lemma questions_asked_in_order_witness :
  omap asked (events (trace (generate_ragas_dataset (sdk:=counting_sdk) tt 0%nat
                               (toy_state counting_sdk 0%nat))))
    = [PStr "q1"; PStr "q2"].
Proof.
  destruct (questions_asked_in_order (sdk:=counting_sdk) tt 0%nat
              (toy_state counting_sdk 0%nat) toy_frame [PStr "q1"; PStr "q2"]
              eq_refl eq_refl) as [_ H].
  apply (H toy_dataset). reflexivity.
Defined.

Lemma single_response_calls_witness :
  exists rsp w' cs,
    query counting_sdk tt (PStr "q1") 0%nat = (inr rsp, w') /\
    events [(EQuery (sdk:=counting_sdk) tt (PStr "q1"), None);
            (EGetContent (sdk:=counting_sdk) "first passage for q1", None);
            (EGetContent (sdk:=counting_sdk) "second passage for q1", None)]
      = response_calls (sdk:=counting_sdk) tt (PStr "q1") rsp /\
    Forall (fun c : Call counting_sdk => c.2 = None)
           [(EQuery (sdk:=counting_sdk) tt (PStr "q1"), None);
            (EGetContent (sdk:=counting_sdk) "first passage for q1", None);
            (EGetContent (sdk:=counting_sdk) "second passage for q1", None)] /\
    [("answer", PStr "answer to q1");
     ("contexts", PList [PStr "first passage for q1"; PStr "second passage for q1"])]
      = response_dict rsp cs /\
    Forall2 content_of (source_nodes rsp) cs /\
    length cs = length (source_nodes rsp).
Proof.
  apply (single_response_calls (sdk:=counting_sdk) tt (PStr "q1")
           (toy_state counting_sdk 0%nat) _ (toy_state counting_sdk 3%nat)).
  reflexivity.
Defined.

Lemma other_columns_ignored_witness :
  outcome (generate_ragas_dataset (sdk:=counting_sdk) tt 0%nat
             (state_with counting_sdk toy_frame 0%nat))
  = outcome (generate_ragas_dataset (sdk:=counting_sdk) tt 0%nat
               (state_with counting_sdk other_frame 0%nat)).
Proof.
  destruct (other_columns_ignored (sdk:=counting_sdk) tt 0%nat 0%nat
              (state_with counting_sdk toy_frame 0%nat)
              (state_with counting_sdk other_frame 0%nat)
              toy_frame other_frame eq_refl eq_refl eq_refl eq_refl eq_refl)
    as (H & _ & _).
  exact H.
Defined.


Lemma notebook_exceptions_witness :
  outcome (notebook (start (testset_sdk mixed_frame) 0%nat)) = inl arrow_type_error /\
  column_or_sdk_error arrow_type_error /\
  (forall r, arrow_type_error <> InvalidFrame r) /\
  arrow_type_error <> ArrowInvalid /\
  (forall k, arrow_type_error = KeyError k -> k = "question" \/ k = "ground_truth").
Proof.
  split; [reflexivity|].
  apply (notebook_exceptions (start (testset_sdk mixed_frame) 0%nat) arrow_type_error).
  reflexivity.
Defined.

Lemma uploaded_frame_witness :
  exists ts w w' df qs gts qs' gts' p up,
    testset_to_pandas (testset_sdk nullable_frame) ts w = (inr df, w') /\
    df_getitem (testset_sdk nullable_frame) df "question" = inr qs /\
    df_getitem (testset_sdk nullable_frame) df "ground_truth" = inr gts /\
    stored (testset_sdk nullable_frame) qs = inr qs' /\
    stored (testset_sdk nullable_frame) gts = inr gts' /\
    (EAddDataframe p up validation_dataset_config, None)
      ∈ trace (notebook (start (testset_sdk nullable_frame) 0%nat)) /\
    df_columns up = ["question"; "answer"; "contexts"; "ground_truth"] /\
    length (df_rows up) = length (df_rows df) /\
    df_getitem (testset_sdk nullable_frame) up "question"
      = inr (pandas_column (testset_sdk nullable_frame) qs' <$> qs') /\
    df_getitem (testset_sdk nullable_frame) up "ground_truth"
      = inr (pandas_column (testset_sdk nullable_frame) gts' <$> gts').
Proof.
  apply (uploaded_frame (start (testset_sdk nullable_frame) 0%nat)). reflexivity.
Defined.

Lemma notebook_questions_witness :
  exists ts w w' df qs,
    testset_to_pandas counting_sdk ts w = (inr df, w') /\
    df_getitem counting_sdk df "question" = inr qs /\
    omap asked (events (trace (notebook (start counting_sdk 0%nat)))) = question :: qs.
Proof.
  apply (notebook_questions (start counting_sdk 0%nat)). reflexivity.
Defined.

Lemma upload_needs_dataset_witness :
  exists d, (EFromDict d, None) ∈ trace (notebook (start counting_sdk 0%nat)).
Proof.
  apply (upload_needs_dataset (start counting_sdk 0%nat) (EPush (sdk:=counting_sdk) tt)).
  - apply (list_elem_of_lookup_2 _ 28). reflexivity.
  - reflexivity.
Defined.

Lemma query_needs_engine_witness :
  exists vi, (EAsQueryEngine vi 2, None) ∈ trace (notebook (start refusing_sdk 0%nat)).
Proof.
  apply (query_needs_engine (start refusing_sdk 0%nat) tt (PStr "q2")).
  apply (list_elem_of_lookup_2 _ 18). reflexivity.
Defined.

(** * The frames that pandas and the datasets library treat specially *)

(** With two columns labelled question, the questions are the rows' pairs
    of cells, and these are what the engine is asked. *)
Example relabelled_frame_questions :
  df_getitem counting_sdk relabelled_frame "question"
    = inr [PList [PStr "q1"; PStr "p1"]; PList [PStr "q2"; PStr "p2"]] /\
  omap asked (events (trace (generate_ragas_dataset (sdk:=counting_sdk) tt 0%nat
                               (state_with counting_sdk relabelled_frame 0%nat))))
    = [PList [PStr "q1"; PStr "p1"]; PList [PStr "q2"; PStr "p2"]].
Proof. split; reflexivity. Qed.

(** The library rejects the ground_truth column of the mixed frame:
    the run raises in its last call, after both questions were asked, and
    the notebook ends there, before anything is uploaded. *)
Example mixed_frame_rejected :
  outcome (generate_ragas_dataset (sdk:=testset_sdk mixed_frame) tt 0%nat
             (state_with (testset_sdk mixed_frame) mixed_frame 0%nat))
    = inl arrow_type_error /\
  omap asked (events (trace (generate_ragas_dataset (sdk:=testset_sdk mixed_frame) tt 0%nat
                               (state_with (testset_sdk mixed_frame) mixed_frame 0%nat))))
    = [PStr "q1"; PStr "q2"] /\
  outcome (notebook (start (testset_sdk mixed_frame) 0%nat)) = inl arrow_type_error /\
  Forall (fun ev => stage ev <> Upload) (events (trace (notebook (start (testset_sdk mixed_frame) 0%nat)))).
Proof.
  split_and!; [reflexivity..|]. vm_compute. repeat constructor; discriminate.
Qed.

(** The library takes the nullable frame; the frame uploaded has its
    ground_truth column as floats, nan for the missing cell. *)
Example nullable_frame_uploaded :
  outcome (notebook (start (testset_sdk nullable_frame) 0%nat)) = inr tt /\
  df_getitem (testset_sdk nullable_frame) nullable_frame "ground_truth"
    = inr [PInt 1; PNone] /\
  exists up,
    frames (final (notebook (start (testset_sdk nullable_frame) 0%nat))) !! 2%nat = Some up /\
    df_getitem (testset_sdk nullable_frame) up "ground_truth"
      = inr [PFloat (S754_finite false 1 0); PFloat S754_nan].
Proof. split_and!; [reflexivity..|]. eexists. split; reflexivity. Qed.
